(** * User properties controller (packages/api/src/controllers/userPropertiesController.ts)

    A shallow embedding of the upsert (PUT), listing (GET) and delete
    (DELETE) handlers of the controller, of the store client they call and
    of the schema validation they rely on, with the properties of the
    upsert and delete routes. *)

From Stdlib Require Import ZArith String List Bool.
From stdpp Require Import base option gmap strings list fin_maps.

Local Open Scope Z_scope.
Local Open Scope string_scope.
Local Set Warnings "-register-all".

(** ** JavaScript values *)

(** A JSON value, as a Prisma [Json] column and a request body hold it.
    Numbers are kept integral: the controller never inspects them. *)
Inductive JsonValue : Type :=
| JNull
| JBoolean (b : bool)
| JNumber (n : Z)
| JString (s : string)
| JArray (items : list JsonValue)
| JObject (fields : list (string * JsonValue)).

(** The fields of a JSON object: the static type of a tagged-variant value
    such as a user property definition. *)
Definition JsonObject : Type := list (string * JsonValue).

(** A stored column that may hold SQL [NULL]; JavaScript reads it as [null],
    which is not [undefined] (the latter is [None] of an [option]). *)
Inductive Nullable (A : Type) : Type :=
| Null
| Value (a : A).
Arguments Null {A}.
Arguments Value {A} a.

(** [x ?? undefined]: a [null] operand gives the right-hand side. *)
Definition nullish_undefined {A : Type} (x : Nullable A) : option A :=
  match x with
  | Null => None
  | Value a => Some a
  end.

(** ToBoolean of a [string | undefined]: the empty string is falsy. *)
Definition truthy_string (s : option string) : bool :=
  match s with
  | Some (String _ _) => true
  | _ => false
  end.

(** ToBoolean of an [object | undefined]: every object is truthy. *)
Definition truthy_object {A : Type} (o : option A) : bool :=
  match o with
  | Some _ => true
  | None => false
  end.

(** ** Thrown values and asynchronous computations *)

(** What a store call can throw. [PrismaClientKnownRequestError] carries the
    [code] the DELETE handler switches on. *)
Inductive Thrown : Type :=
| PrismaClientKnownRequestError (code : string)
| PrismaClientValidationError
| OtherError (message : string).

(** A settled promise. *)
Inductive Settled (A : Type) : Type :=
| Rejected (e : Thrown)
| Fulfilled (a : A).
Arguments Rejected {A} e.
Arguments Fulfilled {A} a.

(** An [async] computation over a store of type [S]. *)
Definition Async (S A : Type) : Type := S -> Settled A * S.

Definition ret {S A : Type} (a : A) : Async S A := fun s => (Fulfilled a, s).

Definition throw {S A : Type} (e : Thrown) : Async S A := fun s => (Rejected e, s).

Definition bind {S A B : Type} (m : Async S A) (k : A -> Async S B) : Async S B :=
  fun s =>
    match m s with
    | (Rejected e, s') => (Rejected e, s')
    | (Fulfilled a, s') => k a s'
    end.

(** [try { m } catch (e) { h e }] *)
Definition try_catch {S A : Type} (m : Async S A) (h : Thrown -> Async S A) : Async S A :=
  fun s =>
    match m s with
    | (Rejected e, s') => h e s'
    | (Fulfilled a, s') => (Fulfilled a, s')
    end.

Declare Scope async_scope.
Delimit Scope async_scope with async.
Notation "'let!' x ':=' m 'in' k" := (bind m (fun x => k))
  (at level 10, x name, m at level 100, k at level 200) : async_scope.
Notation "'do!' m 'in' k" := (bind m (fun _ => k))
  (at level 10, m at level 100, k at level 200) : async_scope.

(** ** neverthrow results and schema validation *)

Inductive Result (T E : Type) : Type :=
| Ok (value : T)
| Err (error : E).
Arguments Ok {T E} value.
Arguments Err {T E} error.

Definition isErr {T E : Type} (r : Result T E) : bool :=
  match r with
  | Ok _ => false
  | Err _ => true
  end.

(** A TypeBox schema, taken as the check it stands for. *)
Definition TSchema : Type := JsonValue -> bool.

Inductive ValidationError : Type :=
| SchemaMismatch.

(** Modelled from the spec: [schemaValidate] of
    isomorphic-lib/src/resultHandling/schemaValidation is not among the
    sources. The SchemaValidator validates a raw value against a schema and
    gives a result, never throwing: the validated value on success, a
    validation error otherwise. The validated value is the raw value, now
    known to conform. *)
Definition schemaValidate (val : JsonValue) (schema : TSchema)
  : Result JsonValue (list ValidationError) :=
  if schema val then Ok val else Err [SchemaMismatch].

(** ** Request bodies, stored rows and resources *)

(** Body of PUT: every field may be missing. *)
Module UpsertUserPropertyResource.
Record t : Type := mk {
  id : option string;
  name : option string;
  definition : option JsonObject;
  workspaceId : option string;
  exampleValue : option JsonValue
}.
End UpsertUserPropertyResource.

(** Body of DELETE. *)
Module DeleteUserPropertyRequest.
Record t : Type := mk { id : string }.
End DeleteUserPropertyRequest.

(** A row of the [UserProperty] table, as the client returns it. *)
Module UserProperty.
Record t : Type := mk {
  id : string;
  workspaceId : string;
  name : string;
  definition : JsonValue;
  definitionUpdatedAt : Nullable Z;
  exampleValue : Nullable JsonValue
}.
End UserProperty.

(** A row of the [UserPropertyAssignment] table. *)
Module UserPropertyAssignment.
Record t : Type := mk {
  userPropertyId : string;
  userId : string;
  value : string
}.
End UserPropertyAssignment.

(** The resource sent back to the caller. *)
Module UserPropertyResource.
Record t : Type := mk {
  id : string;
  name : string;
  workspaceId : string;
  definition : JsonValue;
  exampleValue : option JsonValue
}.
End UserPropertyResource.

(** What a handler sends: [reply.status(c).send(payload)]. *)
Inductive Payload : Type :=
| EmptyBody
| ResourceBody (resource : UserPropertyResource.t)
| PropertiesBody (properties : list UserPropertyResource.t).

Record Reply : Type := mkReply {
  statusCode : Z;
  payload : Payload
}.

(** ** The store client *)

(** Filters of a [where] clause, for the shapes the controller builds. *)
Inductive StringFilter : Type :=
| equals (s : string)
| notIn (names : list string).

Inductive UserPropertyWhereInput : Type :=
| WhereAND (conds : list UserPropertyWhereInput)
| WhereId (f : StringFilter)
| WhereName (f : StringFilter)
| WhereWorkspaceId (f : StringFilter).

Inductive UserPropertyAssignmentWhereInput : Type :=
| AssignmentAND (conds : list UserPropertyAssignmentWhereInput)
| AssignmentUserPropertyId (f : StringFilter)
| AssignmentUserProperty (rel : UserPropertyWhereInput).

(** [create: { id, workspaceId, name, definition, exampleValue }] *)
Module UserPropertyCreateInput.
Record t : Type := mk {
  id : option string;
  workspaceId : option string;
  name : option string;
  definition : option JsonValue;
  exampleValue : option JsonValue
}.
End UserPropertyCreateInput.

(** [update: { workspaceId, name, definition, definitionUpdatedAt, exampleValue }];
    a field holding [undefined] is [None]. *)
Module UserPropertyUpdateInput.
Record t : Type := mk {
  workspaceId : option string;
  name : option string;
  definition : option JsonValue;
  definitionUpdatedAt : option Z;
  exampleValue : option JsonValue
}.
End UserPropertyUpdateInput.

Record UpsertArgs : Type := mkUpsertArgs {
  upsert_where : option string;
  upsert_create : UserPropertyCreateInput.t;
  upsert_update : UserPropertyUpdateInput.t
}.

Record UpdateArgs : Type := mkUpdateArgs {
  update_where : option string;
  update_data : UserPropertyUpdateInput.t
}.

Record BatchPayload : Type := mkBatchPayload { count : Z }.

(** The calls of [prisma()] the controller and its helpers make, over a store
    of type [S]. *)
Class PrismaClient (S : Type) : Type := {
  userProperty_upsert : UpsertArgs -> Async S UserProperty.t;
  userProperty_update : UpdateArgs -> Async S UserProperty.t;
  userProperty_deleteMany : UserPropertyWhereInput -> Async S BatchPayload;
  userProperty_findMany : UserPropertyWhereInput -> Async S (list UserProperty.t);
  userPropertyAssignment_deleteMany :
    UserPropertyAssignmentWhereInput -> Async S BatchPayload
}.

(** ** Replies *)

Definition reply200 (resource : UserPropertyResource.t) : Reply :=
  {| statusCode := 200; payload := ResourceBody resource |}.
Definition reply204 : Reply := {| statusCode := 204; payload := EmptyBody |}.
Definition reply400 : Reply := {| statusCode := 400; payload := EmptyBody |}.
Definition reply404 : Reply := {| statusCode := 404; payload := EmptyBody |}.
Definition reply500 : Reply := {| statusCode := 500; payload := EmptyBody |}.

(** The two faults the DELETE handler turns into "not found". *)
Definition notFoundFault (e : Thrown) : Prop :=
  e = PrismaClientKnownRequestError "P2025"
  ∨ e = PrismaClientKnownRequestError "P2023".

(** ** The controller *)

Section Controller.
Context {S : Type} {prisma : PrismaClient S}.

(** isomorphic-lib/src/protectedUserProperties: the reserved names, a
    [Set<string>] imported by the controller. *)
Variable protectedUserProperties : gset string.

(** The TypeBox schema [UserPropertyDefinition] of isomorphic-lib/src/types. *)
Variable UserPropertyDefinition : TSchema.

(** [protectedUserProperties.has(name)]; the set holds strings only, so
    [has(undefined)] is [false]. *)
Definition has (name : option string) : bool :=
  match name with
  | Some n => bool_decide (n ∈ protectedUserProperties)
  | None => false
  end.

(** [workspaceId && name && definition], read as a condition. *)
Definition canCreate (workspaceId name : option string)
    (definition : option JsonObject) : bool :=
  truthy_string workspaceId && truthy_string name && truthy_object definition.

(** [definition ? new Date() : undefined], [now] being what [new Date()]
    gives. *)
Definition definitionUpdatedAt (now : Z) (definition : option JsonObject)
  : option Z :=
  if truthy_object definition then Some now else None.

(** Lines 45 to 78: the store call whose result is assigned to
    [userProperty]. *)
Definition persistUserProperty (now : Z) (body : UpsertUserPropertyResource.t)
  : Async S UserProperty.t :=
  let id := UpsertUserPropertyResource.id body in
  let name := UpsertUserPropertyResource.name body in
  let definition := UpsertUserPropertyResource.definition body in
  let workspaceId := UpsertUserPropertyResource.workspaceId body in
  let exampleValue := UpsertUserPropertyResource.exampleValue body in
  if canCreate workspaceId name definition && truthy_string id then
    userProperty_upsert
      {| upsert_where := id;
         upsert_create :=
           {| UserPropertyCreateInput.id := id;
              UserPropertyCreateInput.workspaceId := workspaceId;
              UserPropertyCreateInput.name := name;
              UserPropertyCreateInput.definition := JObject <$> definition;
              UserPropertyCreateInput.exampleValue := exampleValue |};
         upsert_update :=
           {| UserPropertyUpdateInput.workspaceId := workspaceId;
              UserPropertyUpdateInput.name := name;
              UserPropertyUpdateInput.definition := JObject <$> definition;
              UserPropertyUpdateInput.definitionUpdatedAt :=
                definitionUpdatedAt now definition;
              UserPropertyUpdateInput.exampleValue := exampleValue |} |}
  else
    userProperty_update
      {| update_where := id;
         update_data :=
           {| UserPropertyUpdateInput.workspaceId := workspaceId;
              UserPropertyUpdateInput.name := name;
              UserPropertyUpdateInput.definition := JObject <$> definition;
              UserPropertyUpdateInput.exampleValue := exampleValue;
              UserPropertyUpdateInput.definitionUpdatedAt :=
                definitionUpdatedAt now definition |} |}.

(** Lines 80 to 97: validation of the stored definition and the reply. *)
Definition replyUserProperty (userProperty : UserProperty.t) : Reply :=
  let userPropertyDefinitionResult :=
    schemaValidate (UserProperty.definition userProperty) UserPropertyDefinition in
  match userPropertyDefinitionResult with
  | Err _ => {| statusCode := 500; payload := EmptyBody |}
  | Ok value =>
      let resource :=
        {| UserPropertyResource.id := UserProperty.id userProperty;
           UserPropertyResource.name := UserProperty.name userProperty;
           UserPropertyResource.workspaceId := UserProperty.workspaceId userProperty;
           UserPropertyResource.definition := value;
           UserPropertyResource.exampleValue :=
             nullish_undefined (UserProperty.exampleValue userProperty) |} in
      {| statusCode := 200; payload := ResourceBody resource |}
  end.

(** PUT "/": create or update a user property. *)
Definition putUserProperty (now : Z) (body : UpsertUserPropertyResource.t)
  : Async S Reply :=
  if has (UpsertUserPropertyResource.name body) then
    ret {| statusCode := 400; payload := EmptyBody |}
  else
    (let! userProperty := persistUserProperty now body in
     ret (replyUserProperty userProperty))%async.

(** The [catch] block of DELETE: two codes of a known request error give
    404, everything else is thrown again. *)
Definition deleteCatch (e : Thrown) : Async S (Reply + Z) :=
  match e with
  | PrismaClientKnownRequestError code =>
      if String.eqb code "P2025" then
        ret (inl {| statusCode := 404; payload := EmptyBody |})
      else if String.eqb code "P2023" then
        ret (inl {| statusCode := 404; payload := EmptyBody |})
      else throw e
  | _ => throw e
  end.

(** The [try] block of DELETE: both [deleteMany] calls, giving
    [deletedCount]. *)
Definition deleteTry (id : string) : Async S (Reply + Z) :=
  (do! userPropertyAssignment_deleteMany
         (AssignmentAND
            [ AssignmentUserPropertyId (equals id);
              AssignmentUserProperty
                (WhereName (notIn (elements protectedUserProperties))) ]) in
   let! response := userProperty_deleteMany
         (WhereAND
            [ WhereId (equals id);
              WhereName (notIn (elements protectedUserProperties)) ]) in
   ret (inr (count response)))%async.

(** DELETE "/": delete a user property. A [return] inside [catch] leaves
    the handler: the left summand carries that reply. *)
Definition deleteUserProperty (body : DeleteUserPropertyRequest.t)
  : Async S Reply :=
  let id := DeleteUserPropertyRequest.id body in
  (let! r := try_catch (deleteTry id) deleteCatch in
   match r with
   | inl reply => ret reply
   | inr deletedCount =>
       if (deletedCount <=? 0)%Z then
         ret {| statusCode := 404; payload := EmptyBody |}
       else
         ret {| statusCode := 204; payload := EmptyBody |}
   end)%async.

(** The resource of a stored row, when its definition validates. *)
Definition resourceOf (userProperty : UserProperty.t)
  : option UserPropertyResource.t :=
  match replyUserProperty userProperty with
  | {| payload := ResourceBody resource |} => Some resource
  | _ => None
  end.

(** Modelled from the spec: [findAllUserProperties] of
    backend-lib/src/userProperties is not among the sources. It returns
    all properties owned by the workspace in the validated resource shape;
    a stored row whose definition does not validate has no such shape and
    is left out. *)
Definition findAllUserProperties (workspaceId : string)
  : Async S (list UserPropertyResource.t) :=
  (let! rows := userProperty_findMany (WhereWorkspaceId (equals workspaceId)) in
   ret (omap resourceOf rows))%async.

(** GET "/": all user properties of a workspace; [catch (e) { throw e }]
    throws the same value again. *)
Definition getUserProperties (workspaceId : string) : Async S Reply :=
  try_catch
    (let! properties := findAllUserProperties workspaceId in
     ret {| statusCode := 200; payload := PropertiesBody properties |})%async
    throw.

(** The routes the controller registers, by the request they serve; the
    route of the assignment values (GET "/values") only forwards to a
    helper of backend-lib and is left out. *)
Inductive Request : Type :=
| PUT (body : UpsertUserPropertyResource.t)
| GET (workspaceId : string)
| DELETE (body : DeleteUserPropertyRequest.t).

Definition userPropertiesController (now : Z) (request : Request)
  : Async S Reply :=
  match request with
  | PUT body => putUserProperty now body
  | GET workspaceId => getUserProperties workspaceId
  | DELETE body => deleteUserProperty body
  end.

End Controller.

(** ** A relational store

    The tables behind [prisma()] and what its calls do to them. The schema
    of the store (backend-lib) is not among the sources; its tables are
    taken from the data model of the specification, and the calls follow
    the client: [upsert] updates the row found by [where] or else creates
    one, [update] throws P2025 when no row is found, a malformed identifier
    throws P2023, a broken uniqueness constraint throws P2002, and a field
    of an update that holds [undefined] leaves the column as it is. *)

(** Modelled from the spec: the columns of the UserProperty table besides
    its key [id] (the schema is not among the sources). A property has a
    [workspaceId], a [name] unique within its workspace, a [definition], a
    nullable [definitionUpdatedAt] and an optional [exampleValue]. *)
Module PropertyRow.
Record t : Type := mk {
  workspaceId : string;
  name : string;
  definition : JsonValue;
  definitionUpdatedAt : Nullable Z;
  exampleValue : Nullable JsonValue
}.
End PropertyRow.

(** Modelled from the spec: the two tables (the schema is not among the
    sources). Properties are keyed by their unique [id]; an assignment names
    its owning property and goes with it when that is deleted. *)
Record Db : Type := mkDb {
  userProperties : gmap string PropertyRow.t;
  userPropertyAssignments : list UserPropertyAssignment.t
}.

Definition toUserProperty (id : string) (r : PropertyRow.t) : UserProperty.t :=
  {| UserProperty.id := id;
     UserProperty.workspaceId := PropertyRow.workspaceId r;
     UserProperty.name := PropertyRow.name r;
     UserProperty.definition := PropertyRow.definition r;
     UserProperty.definitionUpdatedAt := PropertyRow.definitionUpdatedAt r;
     UserProperty.exampleValue := PropertyRow.exampleValue r |}.

Definition stringFilter (f : StringFilter) (s : string) : bool :=
  match f with
  | equals v => String.eqb s v
  | notIn names => negb (bool_decide (s ∈ names))
  end.

Fixpoint matchesUserProperty (w : UserPropertyWhereInput) (u : UserProperty.t)
  : bool :=
  match w with
  | WhereAND conds => forallb (fun c => matchesUserProperty c u) conds
  | WhereId f => stringFilter f (UserProperty.id u)
  | WhereName f => stringFilter f (UserProperty.name u)
  | WhereWorkspaceId f => stringFilter f (UserProperty.workspaceId u)
  end.

(** A relation filter holds of an assignment when its owning property exists
    and matches. *)
Fixpoint matchesAssignment (props : gmap string PropertyRow.t)
    (w : UserPropertyAssignmentWhereInput) (a : UserPropertyAssignment.t) : bool :=
  match w with
  | AssignmentAND conds => forallb (fun c => matchesAssignment props c a) conds
  | AssignmentUserPropertyId f =>
      stringFilter f (UserPropertyAssignment.userPropertyId a)
  | AssignmentUserProperty rel =>
      match props !! UserPropertyAssignment.userPropertyId a with
      | Some r =>
          matchesUserProperty rel
            (toUserProperty (UserPropertyAssignment.userPropertyId a) r)
      | None => false
      end
  end.

(** The identifiers a filter compares a key column with. *)
Definition filterIds (f : StringFilter) : list string :=
  match f with
  | equals v => [v]
  | notIn names => names
  end.

Fixpoint whereIds (w : UserPropertyWhereInput) : list string :=
  match w with
  | WhereAND conds => flat_map whereIds conds
  | WhereId f => filterIds f
  | WhereName _ => []
  | WhereWorkspaceId _ => []
  end.

Fixpoint assignmentWhereIds (w : UserPropertyAssignmentWhereInput) : list string :=
  match w with
  | AssignmentAND conds => flat_map assignmentWhereIds conds
  | AssignmentUserPropertyId f => filterIds f
  | AssignmentUserProperty rel => whereIds rel
  end.

(** [(workspaceId, name)] is already taken by a row other than [id]. *)
Definition nameTaken (id workspaceId name : string) (props : gmap string PropertyRow.t)
  : bool :=
  bool_decide
    (map_Exists
       (fun j r => j ≠ id ∧ PropertyRow.workspaceId r = workspaceId ∧ PropertyRow.name r = name)
       props).

Definition applyUpdate (u : UserPropertyUpdateInput.t) (r : PropertyRow.t) : PropertyRow.t :=
  {| PropertyRow.workspaceId :=
       default (PropertyRow.workspaceId r) (UserPropertyUpdateInput.workspaceId u);
     PropertyRow.name := default (PropertyRow.name r) (UserPropertyUpdateInput.name u);
     PropertyRow.definition :=
       default (PropertyRow.definition r) (UserPropertyUpdateInput.definition u);
     PropertyRow.definitionUpdatedAt :=
       from_option Value (PropertyRow.definitionUpdatedAt r)
         (UserPropertyUpdateInput.definitionUpdatedAt u);
     PropertyRow.exampleValue :=
       from_option Value (PropertyRow.exampleValue r)
         (UserPropertyUpdateInput.exampleValue u) |}.

Section RelationalStore.

(** The format of an identifier column. *)
Variable wellformed_id : string -> bool.

(** The default of the [id] column, for a row created without one. *)
Variable uuid : gmap string PropertyRow.t -> string.

(** Update of the row [id], which exists. *)
Definition updateRow (id : string) (r : PropertyRow.t) (u : UserPropertyUpdateInput.t)
  : Async Db UserProperty.t :=
  fun db =>
    let r' := applyUpdate u r in
    if nameTaken id (PropertyRow.workspaceId r') (PropertyRow.name r') (userProperties db) then
      (Rejected (PrismaClientKnownRequestError "P2002"), db)
    else
      (Fulfilled (toUserProperty id r'),
       {| userProperties := <[id := r']> (userProperties db);
          userPropertyAssignments := userPropertyAssignments db |}).

(** Modelled from the spec: insertion of a new row (the column defaults of
    the schema are not among the sources). [definitionUpdatedAt] is not
    among the fields of a create input and is left unset; an [id] that is
    not supplied is assigned by the store. *)
Definition createRow (c : UserPropertyCreateInput.t) : Async Db UserProperty.t :=
  fun db =>
    match UserPropertyCreateInput.workspaceId c,
          UserPropertyCreateInput.name c,
          UserPropertyCreateInput.definition c with
    | Some workspaceId, Some name, Some definition =>
        let id := default (uuid (userProperties db)) (UserPropertyCreateInput.id c) in
        let r :=
          {| PropertyRow.workspaceId := workspaceId;
             PropertyRow.name := name;
             PropertyRow.definition := definition;
             PropertyRow.definitionUpdatedAt := Null;
             PropertyRow.exampleValue :=
               from_option Value Null (UserPropertyCreateInput.exampleValue c) |} in
        if negb (wellformed_id id) then
          (Rejected (PrismaClientKnownRequestError "P2023"), db)
        else if bool_decide (is_Some (userProperties db !! id))
                || nameTaken id workspaceId name (userProperties db) then
          (Rejected (PrismaClientKnownRequestError "P2002"), db)
        else
          (Fulfilled (toUserProperty id r),
           {| userProperties := <[id := r]> (userProperties db);
              userPropertyAssignments := userPropertyAssignments db |})
    | _, _, _ => (Rejected PrismaClientValidationError, db)
    end.

(** [userProperty.update({ where: { id }, data })] *)
Definition update (args : UpdateArgs) : Async Db UserProperty.t :=
  fun db =>
    match update_where args with
    | None => (Rejected PrismaClientValidationError, db)
    | Some id =>
        if negb (wellformed_id id) then
          (Rejected (PrismaClientKnownRequestError "P2023"), db)
        else
          match userProperties db !! id with
          | None => (Rejected (PrismaClientKnownRequestError "P2025"), db)
          | Some r => updateRow id r (update_data args) db
          end
    end.

(** [userProperty.upsert({ where: { id }, create, update })] *)
Definition upsert (args : UpsertArgs) : Async Db UserProperty.t :=
  fun db =>
    match upsert_where args with
    | None => (Rejected PrismaClientValidationError, db)
    | Some id =>
        if negb (wellformed_id id) then
          (Rejected (PrismaClientKnownRequestError "P2023"), db)
        else
          match userProperties db !! id with
          | None => createRow (upsert_create args) db
          | Some r => updateRow id r (upsert_update args) db
          end
    end.

(** [userProperty.findMany({ where })] *)
Definition findMany (w : UserPropertyWhereInput) : Async Db (list UserProperty.t) :=
  fun db =>
    if forallb wellformed_id (whereIds w) then
      (Fulfilled
         (List.filter (matchesUserProperty w)
            (uncurry toUserProperty <$> map_to_list (userProperties db))),
       db)
    else (Rejected (PrismaClientKnownRequestError "P2023"), db).

(** [userProperty.deleteMany({ where })]: the matching rows go, and with
    them the assignments they own. *)
Definition deleteMany (w : UserPropertyWhereInput) : Async Db BatchPayload :=
  fun db =>
    if forallb wellformed_id (whereIds w) then
      let gone :=
        filter (fun '(id, r) => matchesUserProperty w (toUserProperty id r) = true)
          (userProperties db) in
      (Fulfilled {| count := Z.of_nat (size gone) |},
       {| userProperties := userProperties db ∖ gone;
          userPropertyAssignments :=
            List.filter
              (fun a =>
                 negb (bool_decide
                         (is_Some (gone !! UserPropertyAssignment.userPropertyId a))))
              (userPropertyAssignments db) |})
    else (Rejected (PrismaClientKnownRequestError "P2023"), db).

(** [userPropertyAssignment.deleteMany({ where })] *)
Definition deleteManyAssignments (w : UserPropertyAssignmentWhereInput)
  : Async Db BatchPayload :=
  fun db =>
    if forallb wellformed_id (assignmentWhereIds w) then
      let kept :=
        List.filter (fun a => negb (matchesAssignment (userProperties db) w a))
          (userPropertyAssignments db) in
      (Fulfilled
         {| count :=
              Z.of_nat (length (userPropertyAssignments db)) - Z.of_nat (length kept) |},
       {| userProperties := userProperties db;
          userPropertyAssignments := kept |})
    else (Rejected (PrismaClientKnownRequestError "P2023"), db).

Definition relationalStore : PrismaClient Db :=
  {| userProperty_upsert := upsert;
     userProperty_update := update;
     userProperty_deleteMany := deleteMany;
     userProperty_findMany := findMany;
     userPropertyAssignment_deleteMany := deleteManyAssignments |}.

End RelationalStore.

(** ** A sample configuration

    Concrete values for the constants the controller imports, on which the
    handlers run. *)
Module Sample.

Definition protectedUserProperties : gset string := {[ "id"; "anonymousId" ]}.

(** A tagged variant: an object whose first field is a string [type]. *)
Definition UserPropertyDefinition : TSchema :=
  fun v =>
    match v with
    | JObject (("type", JString _) :: _) => true
    | _ => false
    end.

(** Identifiers with the length of a UUID. *)
Definition wellformed_id (s : string) : bool := Nat.eqb (String.length s) 36.

Definition uuid (props : gmap string PropertyRow.t) : string :=
  "00000000-0000-0000-0000-000000000000".

Definition store : PrismaClient Db := relationalStore wellformed_id uuid.

Definition workspace1 : string := "11111111-1111-1111-1111-111111111111".
Definition workspace2 : string := "22222222-2222-2222-2222-222222222222".
Definition property1 : string := "aaaaaaaa-aaaa-aaaa-aaaa-aaaaaaaaaaaa".
Definition property2 : string := "bbbbbbbb-bbbb-bbbb-bbbb-bbbbbbbbbbbb".

Definition traitEmail : JsonObject :=
  [("type", JString "Trait"); ("path", JString "email")].
Definition traitPhone : JsonObject :=
  [("type", JString "Trait"); ("path", JString "phone")].

(** A store holding the protected property [id] of workspace 1, with one
    assignment, and the property [email]. *)
Definition db : Db :=
  {| userProperties :=
       <[ property1 :=
            {| PropertyRow.workspaceId := workspace1;
               PropertyRow.name := "id";
               PropertyRow.definition := JObject [("type", JString "Id")];
               PropertyRow.definitionUpdatedAt := Value 100;
               PropertyRow.exampleValue := Null |} ]>
       (<[ property2 :=
            {| PropertyRow.workspaceId := workspace1;
               PropertyRow.name := "email";
               PropertyRow.definition := JObject traitEmail;
               PropertyRow.definitionUpdatedAt := Value 100;
               PropertyRow.exampleValue := Value (JString "a@b.c") |} ]> ∅);
     userPropertyAssignments :=
       [ {| UserPropertyAssignment.userPropertyId := property1;
            UserPropertyAssignment.userId := "u1";
            UserPropertyAssignment.value := "42" |};
         {| UserPropertyAssignment.userPropertyId := property2;
            UserPropertyAssignment.userId := "u1";
            UserPropertyAssignment.value := "a@b.c" |} ] |}.

Definition emptyDb : Db :=
  {| userProperties := ∅; userPropertyAssignments := [] |}.

(** A store seeded with a definition that is not a tagged variant. *)
Definition seededDb : Db :=
  {| userProperties :=
       <[ property2 :=
            {| PropertyRow.workspaceId := workspace1;
               PropertyRow.name := "email";
               PropertyRow.definition := JString "not a definition";
               PropertyRow.definitionUpdatedAt := Null;
               PropertyRow.exampleValue := Null |} ]> ∅;
     userPropertyAssignments := [] |}.

(** The row and the resource of [email], as stored and after the requests
    below. *)
Definition emailRow : PropertyRow.t :=
  {| PropertyRow.workspaceId := workspace1;
     PropertyRow.name := "email";
     PropertyRow.definition := JObject traitEmail;
     PropertyRow.definitionUpdatedAt := Value 100;
     PropertyRow.exampleValue := Value (JString "a@b.c") |}.


Definition movedResource : UserPropertyResource.t :=
  {| UserPropertyResource.id := property2;
     UserPropertyResource.name := "phone";
     UserPropertyResource.workspaceId := workspace2;
     UserPropertyResource.definition := JObject traitPhone;
     UserPropertyResource.exampleValue := Some (JString "a@b.c") |}.

Definition exampleRow : PropertyRow.t :=
  {| PropertyRow.workspaceId := workspace1;
     PropertyRow.name := "email";
     PropertyRow.definition := JObject traitEmail;
     PropertyRow.definitionUpdatedAt := Value 100;
     PropertyRow.exampleValue := Value (JString "x@y.z") |}.

Definition exampleResource : UserPropertyResource.t :=
  {| UserPropertyResource.id := property2;
     UserPropertyResource.name := "email";
     UserPropertyResource.workspaceId := workspace1;
     UserPropertyResource.definition := JObject traitEmail;
     UserPropertyResource.exampleValue := Some (JString "x@y.z") |}.

(** Request bodies. *)
Definition renameBody : UpsertUserPropertyResource.t :=
  {| UpsertUserPropertyResource.id := Some property1;
     UpsertUserPropertyResource.name := Some "renamed";
     UpsertUserPropertyResource.definition := Some traitPhone;
     UpsertUserPropertyResource.workspaceId := Some workspace2;
     UpsertUserPropertyResource.exampleValue := None |}.

Definition protectedBody : UpsertUserPropertyResource.t :=
  {| UpsertUserPropertyResource.id := Some property2;
     UpsertUserPropertyResource.name := Some "anonymousId";
     UpsertUserPropertyResource.definition := Some traitPhone;
     UpsertUserPropertyResource.workspaceId := Some workspace1;
     UpsertUserPropertyResource.exampleValue := None |}.

Definition exampleOnlyBody : UpsertUserPropertyResource.t :=
  {| UpsertUserPropertyResource.id := Some property2;
     UpsertUserPropertyResource.name := None;
     UpsertUserPropertyResource.definition := None;
     UpsertUserPropertyResource.workspaceId := None;
     UpsertUserPropertyResource.exampleValue := Some (JString "x@y.z") |}.

Definition phoneBody (id : option string) : UpsertUserPropertyResource.t :=
  {| UpsertUserPropertyResource.id := id;
     UpsertUserPropertyResource.name := Some "phone";
     UpsertUserPropertyResource.definition := Some traitPhone;
     UpsertUserPropertyResource.workspaceId := Some workspace2;
     UpsertUserPropertyResource.exampleValue := None |}.

Definition putRoute (now : Z) (body : UpsertUserPropertyResource.t) : Async Db Reply :=
  @putUserProperty Db store protectedUserProperties UserPropertyDefinition now body.

Definition deleteRoute (body : DeleteUserPropertyRequest.t) : Async Db Reply :=
  @deleteUserProperty Db store protectedUserProperties body.


End Sample.

(** The row an insertion of PUT writes. *)
Definition insertedRow (workspaceId name : string) (definition : JsonObject)
    (exampleValue : option JsonValue) : PropertyRow.t :=
  {| PropertyRow.workspaceId := workspaceId;
     PropertyRow.name := name;
     PropertyRow.definition := JObject definition;
     PropertyRow.definitionUpdatedAt := Null;
     PropertyRow.exampleValue := from_option Value Null exampleValue |}.

(** No stored [definitionUpdatedAt] is ahead of the clock reading [now]. *)
Definition stampsNotAhead (now : Z) (db : Db) : Prop :=
  forall id r stamp,
    userProperties db !! id = Some r ->
    PropertyRow.definitionUpdatedAt r = Value stamp ->
    (stamp <= now)%Z.

(** ** The route of the assignment values *)

(** What GET "/values" sends: [reply.status(200).send({ values: result })]. *)
Record ValuesReply (V : Type) : Type := mkValuesReply {
  valuesStatusCode : Z;
  values : list V
}.
Arguments mkValuesReply {V} valuesStatusCode values.
Arguments valuesStatusCode {V} _.
Arguments values {V} _.

Section ValuesRoute.
Context {S V : Type}.

(** [findAllPropertyValues] of backend-lib/src/userProperties, which the
    controller imports and calls with the two query parameters; its body is
    not among the sources and the handler is read for any such function. *)
Variable findAllPropertyValues : string -> string -> Async S (list V).

(** GET "/values": all values of a property; [catch (e) { throw e }] throws
    the same value again. *)
Definition getPropertyValues (propertyId workspaceId : string)
  : Async S (ValuesReply V) :=
  try_catch
    (let! result := findAllPropertyValues propertyId workspaceId in
     ret {| valuesStatusCode := 200; values := result |})%async
    throw.

End ValuesRoute.

(** A row and a store with the [definitionUpdatedAt] stamps forgotten. *)
Definition eraseStamp (r : PropertyRow.t) : PropertyRow.t :=
  {| PropertyRow.workspaceId := PropertyRow.workspaceId r;
     PropertyRow.name := PropertyRow.name r;
     PropertyRow.definition := PropertyRow.definition r;
     PropertyRow.definitionUpdatedAt := Null;
     PropertyRow.exampleValue := PropertyRow.exampleValue r |}.

Definition eraseStamps (db : Db) : Db :=
  {| userProperties := eraseStamp <$> userProperties db;
     userPropertyAssignments := userPropertyAssignments db |}.

(** * Properties *)

(** ** Whatever the store *)

Section AnyStore.
Context {S : Type} {store : PrismaClient S}.
Variable protectedUserProperties : gset string.
Variable UserPropertyDefinition : TSchema.

Abbreviation put := (putUserProperty protectedUserProperties UserPropertyDefinition).
Abbreviation respond := (replyUserProperty UserPropertyDefinition).

Lemma has_protected (N : string) :
  N ∈ protectedUserProperties -> has protectedUserProperties (Some N) = true.
Proof. intros HN. simpl. by apply bool_decide_eq_true. Qed.

(** Past the name check, the handler is the store call followed by the
    reply built from the row it gives. *)
Lemma put_unprotected now body s :
  has protectedUserProperties (UpsertUserPropertyResource.name body) = false ->
  put now body s =
    match persistUserProperty now body s with
    | (Rejected e, s') => (Rejected e, s')
    | (Fulfilled userProperty, s') => (Fulfilled (respond userProperty), s')
    end.
Proof.
  intros Hhas. unfold putUserProperty, bind, ret. rewrite Hhas.
  by destruct (persistUserProperty now body s) as [[e|u] s'].
Qed.

(** A reply of the handler other than 400 comes from a fulfilled store
    call. *)
Lemma put_fulfilled_inv now body s reply s' :
  put now body s = (Fulfilled reply, s') ->
  statusCode reply ≠ 400 ->
  has protectedUserProperties (UpsertUserPropertyResource.name body) = false
  ∧ exists userProperty,
      persistUserProperty now body s = (Fulfilled userProperty, s')
      ∧ reply = respond userProperty.
Proof.
  intros Hput Hcode.
  destruct (has protectedUserProperties (UpsertUserPropertyResource.name body))
    eqn:Hhas.
  - unfold putUserProperty in Hput. rewrite Hhas in Hput.
    unfold ret in Hput. injection Hput as <- _. by destruct Hcode.
  - split; [done|]. rewrite (put_unprotected _ _ _ Hhas) in Hput.
    destruct (persistUserProperty now body s) as [[e|u] s1]; [done|].
    injection Hput as <- <-. by exists u.
Qed.

Lemma respond_200_inv userProperty :
  statusCode (respond userProperty) = 200 ->
  UserPropertyDefinition (UserProperty.definition userProperty) = true
  ∧ respond userProperty =
      reply200
        {| UserPropertyResource.id := UserProperty.id userProperty;
           UserPropertyResource.name := UserProperty.name userProperty;
           UserPropertyResource.workspaceId := UserProperty.workspaceId userProperty;
           UserPropertyResource.definition := UserProperty.definition userProperty;
           UserPropertyResource.exampleValue :=
             nullish_undefined (UserProperty.exampleValue userProperty) |}.
Proof.
  unfold replyUserProperty, schemaValidate.
  destruct (UserPropertyDefinition (UserProperty.definition userProperty));
    simpl; [done | discriminate].
Qed.

Lemma respond_valid userProperty :
  UserPropertyDefinition (UserProperty.definition userProperty) = true ->
  respond userProperty =
    reply200
      {| UserPropertyResource.id := UserProperty.id userProperty;
         UserPropertyResource.name := UserProperty.name userProperty;
         UserPropertyResource.workspaceId := UserProperty.workspaceId userProperty;
         UserPropertyResource.definition := UserProperty.definition userProperty;
         UserPropertyResource.exampleValue :=
           nullish_undefined (UserProperty.exampleValue userProperty) |}.
Proof.
  intros Hok. unfold replyUserProperty, schemaValidate. by rewrite Hok.
Qed.

(** The [catch] block of DELETE. *)
Lemma deleteCatch_notFound (e : Thrown) (s : S) :
  notFoundFault e ->
  deleteCatch e s = (Fulfilled (inl reply404), s).
Proof. intros [-> | ->]; reflexivity. Qed.

Lemma deleteCatch_other (e : Thrown) (s : S) :
  ¬ notFoundFault e ->
  deleteCatch e s = (Rejected e, s).
Proof.
  intros Hother. destruct e as [code| |message]; simpl; try reflexivity.
  destruct (String.eqb_spec code "P2025") as [->|_].
  { destruct Hother. by left. }
  destruct (String.eqb_spec code "P2023") as [->|_].
  { destruct Hother. by right. }
  reflexivity.
Qed.

(** The [try] block of DELETE, call by call: the first fault ends it. *)
Lemma deleteTry_calls (id : string) (s : S) :
  deleteTry protectedUserProperties id s =
    match
      userPropertyAssignment_deleteMany
        (AssignmentAND
           [ AssignmentUserPropertyId (equals id);
             AssignmentUserProperty
               (WhereName (notIn (elements protectedUserProperties))) ]) s
    with
    | (Rejected e, s1) => (Rejected e, s1)
    | (Fulfilled _, s1) =>
        match
          userProperty_deleteMany
            (WhereAND
               [ WhereId (equals id);
                 WhereName (notIn (elements protectedUserProperties)) ]) s1
        with
        | (Rejected e, s2) => (Rejected e, s2)
        | (Fulfilled response, s2) => (Fulfilled (inr (count response)), s2)
        end
    end.
Proof.
  unfold deleteTry, bind, ret.
  destruct (userPropertyAssignment_deleteMany _ s) as [[e|b] s1]; [done|].
  by destruct (userProperty_deleteMany _ s1) as [[e|response] s2].
Qed.

(** A fault of the [try] block is answered 404 when it is one of the two
    known codes and thrown again, unchanged, otherwise. *)
Lemma deleteUserProperty_fault (id : string) (s s' : S) (e : Thrown) :
  deleteTry protectedUserProperties id s = (Rejected e, s') ->
  (notFoundFault e ->
   deleteUserProperty protectedUserProperties
     {| DeleteUserPropertyRequest.id := id |} s = (Fulfilled reply404, s'))
  ∧ (¬ notFoundFault e ->
     deleteUserProperty protectedUserProperties
       {| DeleteUserPropertyRequest.id := id |} s = (Rejected e, s')).
Proof.
  intros Htry. unfold deleteUserProperty, bind, try_catch. simpl.
  rewrite Htry. split; intros He.
  - by rewrite (deleteCatch_notFound e s' He).
  - by rewrite (deleteCatch_other e s' He).
Qed.

(** Without a fault, the count of deleted rows decides between 404 and 204. *)
Lemma deleteUserProperty_count (id : string) (s s' : S) (deletedCount : Z) :
  deleteTry protectedUserProperties id s = (Fulfilled (inr deletedCount), s') ->
  deleteUserProperty protectedUserProperties
    {| DeleteUserPropertyRequest.id := id |} s =
    (Fulfilled (if (deletedCount <=? 0)%Z then reply404 else reply204), s').
Proof.
  intros Htry. unfold deleteUserProperty, bind, try_catch. simpl.
  rewrite Htry. by destruct (deletedCount <=? 0)%Z.
Qed.

End AnyStore.

Section AnyStoreClaims.
Context {S : Type} {store : PrismaClient S}.
Variable protectedUserProperties : gset string.
Variable UserPropertyDefinition : TSchema.

Abbreviation put := (putUserProperty protectedUserProperties UserPropertyDefinition).
Abbreviation respond := (replyUserProperty UserPropertyDefinition).

(** C4. An upsert whose supplied name is a protected name is answered 400,
    whatever the other fields of the body, and the store is left as it
    was: the handler returns before any store call. *)
Theorem put_protected_name_rejected (N : string) (now : Z)
    (body : UpsertUserPropertyResource.t) (s : S) :
  N ∈ protectedUserProperties ->
  UpsertUserPropertyResource.name body = Some N ->
  put now body s = (Fulfilled reply400, s).
Proof.
  intros HN Hname. unfold putUserProperty.
  rewrite Hname, (has_protected _ _ HN). reflexivity.
Qed.

(** C6. When the store call of an upsert is fulfilled and the definition of
    the row it returns does not validate against the schema, the reply is
    500; the validation is applied to the row returned by the store call,
    on the upsert branch and on the update branch alike, so that every
    reply after a fulfilled store call is built by [replyUserProperty], and
    is 500 exactly when that validation fails. *)
Theorem put_invalid_stored_definition (now : Z)
    (body : UpsertUserPropertyResource.t) (s s' : S)
    (userProperty : UserProperty.t) :
  has protectedUserProperties (UpsertUserPropertyResource.name body) = false ->
  persistUserProperty now body s = (Fulfilled userProperty, s') ->
  put now body s = (Fulfilled (respond userProperty), s')
  ∧ (isErr (schemaValidate (UserProperty.definition userProperty)
              UserPropertyDefinition) = true ->
     put now body s = (Fulfilled reply500, s'))
  ∧ (statusCode (respond userProperty) = 500 <->
     isErr (schemaValidate (UserProperty.definition userProperty)
              UserPropertyDefinition) = true).
Proof.
  intros Hhas Hstore.
  assert (Hput : put now body s = (Fulfilled (respond userProperty), s')).
  { rewrite (put_unprotected _ _ _ _ _ Hhas), Hstore. reflexivity. }
  split; [exact Hput|]. split.
  - intros Herr. rewrite Hput. unfold replyUserProperty.
    destruct (schemaValidate _ _); [discriminate | reflexivity].
  - unfold replyUserProperty.
    destruct (schemaValidate _ _); simpl; split; (discriminate || reflexivity).
Qed.

(** C9. The definition carried by the resource of a successful upsert
    validates again against the schema, and validation gives it back
    unchanged. *)
Theorem put_resource_revalidates (now : Z)
    (body : UpsertUserPropertyResource.t) (s s' : S)
    (resource : UserPropertyResource.t) :
  put now body s = (Fulfilled (reply200 resource), s') ->
  schemaValidate (UserPropertyResource.definition resource) UserPropertyDefinition
  = Ok (UserPropertyResource.definition resource).
Proof.
  intros Hput.
  destruct (put_fulfilled_inv _ _ _ _ _ _ _ Hput) as (_ & u & _ & Hreply);
    [discriminate|].
  assert (Hcode : statusCode (respond u) = 200) by (by rewrite <- Hreply).
  destruct (respond_200_inv _ _ Hcode) as [Hvalid Hshape].
  rewrite Hshape in Hreply. injection Hreply as ->. simpl.
  unfold schemaValidate. by rewrite Hvalid.
Qed.

(** *** Further properties of the handlers, whatever the store *)

Lemma notFoundFault_dec (e : Thrown) : notFoundFault e ∨ ¬ notFoundFault e.
Proof.
  destruct e as [code| |message].
  - destruct (String.eqb_spec code "P2025") as [->|Hne1]; [left; by left|].
    destruct (String.eqb_spec code "P2023") as [->|Hne2]; [left; by right|].
    right. intros [[= ->] | [= ->]]; done.
  - right. intros [? | ?]; discriminate.
  - right. intros [? | ?]; discriminate.
Qed.

(** X1. A reply of PUT is 400, 200 or 500 and nothing else. It is 400,
    with an empty body and the store as it was, exactly when the name of
    the body is protected; otherwise the store call was fulfilled with a
    row, and the reply is 200 with a resource when the definition of that
    row validates and 500 with an empty body when it does not. *)
Theorem put_reply_codes (now : Z) (body : UpsertUserPropertyResource.t)
    (s s' : S) (reply : Reply) :
  put now body s = (Fulfilled reply, s') ->
  (has protectedUserProperties (UpsertUserPropertyResource.name body) = true
   ∧ reply = reply400 ∧ s' = s)
  ∨ (has protectedUserProperties (UpsertUserPropertyResource.name body) = false
     ∧ exists userProperty,
         persistUserProperty now body s = (Fulfilled userProperty, s')
         ∧ ((UserPropertyDefinition (UserProperty.definition userProperty) = true
             ∧ exists resource, reply = reply200 resource)
            ∨ (UserPropertyDefinition (UserProperty.definition userProperty) = false
               ∧ reply = reply500))).
Proof.
  intros Hput.
  destruct (has protectedUserProperties (UpsertUserPropertyResource.name body))
    eqn:Hhas.
  - left. unfold putUserProperty in Hput. rewrite Hhas in Hput.
    by injection Hput as <- <-.
  - right. split; [done|].
    rewrite (put_unprotected _ _ _ _ _ Hhas) in Hput.
    destruct (persistUserProperty now body s) as [[e|u] s1]; [done|].
    injection Hput as <- <-. exists u. split; [done|].
    unfold replyUserProperty, schemaValidate.
    destruct (UserPropertyDefinition (UserProperty.definition u)).
    + left. split; [done|]. by eexists.
    + by right.
Qed.

(** X2. PUT has no [catch]: it throws exactly when the name of the body is
    not protected and its store call throws, and then it throws the fault
    of the store call, unchanged, in the state the store call left. *)
Theorem put_throws_store_fault (now : Z) (body : UpsertUserPropertyResource.t)
    (s s' : S) (e : Thrown) :
  put now body s = (Rejected e, s')
  <-> has protectedUserProperties (UpsertUserPropertyResource.name body) = false
      ∧ persistUserProperty now body s = (Rejected e, s').
Proof.
  split.
  - intros Hput.
    destruct (has protectedUserProperties (UpsertUserPropertyResource.name body))
      eqn:Hhas.
    { unfold putUserProperty in Hput. by rewrite Hhas in Hput. }
    split; [done|]. rewrite (put_unprotected _ _ _ _ _ Hhas) in Hput.
    destruct (persistUserProperty now body s) as [[e'|u] s1]; [|done].
    by injection Hput as <- <-.
  - intros [Hhas Hstore].
    by rewrite (put_unprotected _ _ _ _ _ Hhas), Hstore.
Qed.

(** X3. DELETE sends 404 or 204, both with an empty body, and nothing else;
    when it throws, the fault is the one its [try] block threw and is
    neither of the two known codes. *)
Theorem delete_outcomes (id : string) (s s' : S) (outcome : Settled Reply) :
  deleteUserProperty protectedUserProperties
    {| DeleteUserPropertyRequest.id := id |} s = (outcome, s') ->
  match outcome with
  | Fulfilled reply => reply = reply404 ∨ reply = reply204
  | Rejected e =>
      ¬ notFoundFault e
      ∧ deleteTry protectedUserProperties id s = (Rejected e, s')
  end.
Proof.
  intros Hdelete.
  destruct (deleteTry protectedUserProperties id s) as [[e|[reply|n]] s1]
    eqn:Htry.
  - destruct (deleteUserProperty_fault _ _ _ _ _ Htry) as [Hknown Hother].
    destruct (notFoundFault_dec e) as [He|He].
    + rewrite (Hknown He) in Hdelete. injection Hdelete as <- <-. by left.
    + rewrite (Hother He) in Hdelete. by injection Hdelete as <- <-.
  - rewrite deleteTry_calls in Htry.
    destruct (userPropertyAssignment_deleteMany _ s) as [[e|b] s2]; [done|].
    by destruct (userProperty_deleteMany _ s2) as [[e|response] s3].
  - rewrite (deleteUserProperty_count _ _ _ _ _ Htry) in Hdelete.
    injection Hdelete as <- <-. destruct (n <=? 0)%Z; [by left|by right].
Qed.

(** X4. Neither GET handler alters what its helper gives: the [catch] block
    throws the caught fault again, so a fault of the helper is thrown
    unchanged, and a list, empty or not, is sent with status 200 as it is;
    the state is the one the helper left. *)
Theorem get_routes_transparent :
  (forall (workspaceId : string) (s : S),
     getUserProperties UserPropertyDefinition workspaceId s =
       match findAllUserProperties UserPropertyDefinition workspaceId s with
       | (Rejected e, s') => (Rejected e, s')
       | (Fulfilled properties, s') =>
           (Fulfilled
              {| statusCode := 200; payload := PropertiesBody properties |}, s')
       end)
  ∧ (forall (V : Type) (findAllPropertyValues : string -> string -> Async S (list V))
       (propertyId workspaceId : string) (s : S),
       getPropertyValues findAllPropertyValues propertyId workspaceId s =
         match findAllPropertyValues propertyId workspaceId s with
         | (Rejected e, s') => (Rejected e, s')
         | (Fulfilled result, s') =>
             (Fulfilled {| valuesStatusCode := 200; values := result |}, s')
         end).
Proof.
  split.
  - intros workspaceId s. unfold getUserProperties, try_catch, bind, ret, throw.
    by destruct (findAllUserProperties _ workspaceId s) as [[e|l] s'].
  - intros V findAllPropertyValues propertyId workspaceId s.
    unfold getPropertyValues, try_catch, bind, ret, throw.
    by destruct (findAllPropertyValues propertyId workspaceId s) as [[e|l] s'].
Qed.

End AnyStoreClaims.

(** Witness of C4: the name [anonymousId] on the sample store. *)
Lemma put_protected_name_rejected_witness :
  "anonymousId" ∈ Sample.protectedUserProperties
  ∧ Sample.putRoute 200 Sample.protectedBody Sample.db
    = (Fulfilled reply400, Sample.db).
Proof.
  split.
  - vm_compute. set_solver.
  - apply (put_protected_name_rejected (store := Sample.store)
             Sample.protectedUserProperties Sample.UserPropertyDefinition
             "anonymousId" 200 Sample.protectedBody Sample.db).
    + set_solver.
    + reflexivity.
Defined.

(** ** On the relational store *)

Lemma filter_all (A : Type) (f : A -> bool) (l : list A) :
  (forall a, f a = true) -> List.filter f l = l.
Proof.
  intros Hf. induction l as [|a l IH]; simpl; [reflexivity|].
  rewrite (Hf a). by f_equal.
Qed.

Lemma filter_filter_same (A : Type) (f g : A -> bool) (l : list A) :
  (forall a, f a = true -> g a = true) ->
  List.filter g (List.filter f l) = List.filter f l.
Proof.
  intros Hfg. induction l as [|a l IH]; simpl; [reflexivity|].
  destruct (f a) eqn:Hfa; simpl; [|exact IH].
  rewrite (Hfg a Hfa). by f_equal.
Qed.

Lemma filter_ext_bool (A : Type) (f g : A -> bool) (l : list A) :
  (forall a, f a = g a) -> List.filter f l = List.filter g l.
Proof.
  intros Hfg. induction l as [|a l IH]; simpl; [reflexivity|].
  rewrite (Hfg a), IH. reflexivity.
Qed.

Section OnRelationalStore.
Variable wellformed_id : string -> bool.
Variable uuid : gmap string PropertyRow.t -> string.
Variable protectedUserProperties : gset string.
Variable UserPropertyDefinition : TSchema.

Abbreviation store := (relationalStore wellformed_id uuid).
Abbreviation delete_route :=
  (@deleteUserProperty Db store protectedUserProperties).
Abbreviation assignmentsWhere id :=
  (AssignmentAND
     [ AssignmentUserPropertyId (equals id);
       AssignmentUserProperty
         (WhereName (notIn (elements protectedUserProperties))) ]).
Abbreviation propertyWhere id :=
  (WhereAND
     [ WhereId (equals id);
       WhereName (notIn (elements protectedUserProperties)) ]).

(** The rows the DELETE handler asks the store to remove. *)
Lemma propertyWhere_matches id j r :
  matchesUserProperty (propertyWhere id) (toUserProperty j r) = true
  <-> j = id ∧ PropertyRow.name r ∉ protectedUserProperties.
Proof.
  simpl. rewrite !andb_true_iff, String.eqb_eq, negb_true_iff,
    bool_decide_eq_false, elem_of_elements. tauto.
Qed.

Lemma gone_spec id (props : gmap string PropertyRow.t) :
  filter
    (fun '(j, r) =>
       matchesUserProperty (propertyWhere id) (toUserProperty j r) = true)
    props
  = match props !! id with
    | Some r =>
        if bool_decide (PropertyRow.name r ∈ protectedUserProperties) then ∅
        else {[ id := r ]}
    | None => ∅
    end.
Proof.
  apply map_eq. intros j. apply option_eq. intros x.
  rewrite map_lookup_filter_Some, propertyWhere_matches.
  destruct (props !! id) as [r|] eqn:Hid.
  - case_bool_decide as Hprot.
    + rewrite lookup_empty. split; [|done].
      intros (Hj & -> & Hx). rewrite Hid in Hj. by injection Hj as ->.
    + rewrite lookup_singleton_Some. split.
      * intros (Hj & -> & _). rewrite Hid in Hj. by injection Hj as ->.
      * intros [<- <-]. done.
  - rewrite lookup_empty. split; [|done].
    intros (Hj & -> & _). by rewrite Hid in Hj.
Qed.

(** The assignments the DELETE handler asks the store to remove. *)
Lemma assignmentsWhere_matches id (props : gmap string PropertyRow.t) a :
  matchesAssignment props (assignmentsWhere id) a = true
  <-> UserPropertyAssignment.userPropertyId a = id
      ∧ exists r, props !! id = Some r ∧ PropertyRow.name r ∉ protectedUserProperties.
Proof.
  simpl. rewrite !andb_true_iff, String.eqb_eq. split.
  - intros (Hid & Hrel & _). split; [done|]. rewrite Hid in Hrel.
    destruct (props !! id) as [r|]; [|done]. exists r. split; [done|].
    simpl in Hrel. rewrite ?andb_true_iff, negb_true_iff,
      bool_decide_eq_false, elem_of_elements in Hrel. tauto.
  - intros (Hid & r & Hr & Hname). rewrite Hid, Hr. simpl.
    rewrite ?andb_true_iff, negb_true_iff, bool_decide_eq_false,
      elem_of_elements. tauto.
Qed.

#[local] Arguments matchesUserProperty : simpl never.
#[local] Arguments matchesAssignment : simpl never.

(** What DELETE does on the relational store. *)
Lemma delete_route_spec id db :
  delete_route {| DeleteUserPropertyRequest.id := id |} db =
    if wellformed_id id then
      match userProperties db !! id with
      | Some r =>
          if bool_decide (PropertyRow.name r ∈ protectedUserProperties) then
            (Fulfilled reply404, db)
          else
            (Fulfilled reply204,
             {| userProperties := delete id (userProperties db);
                userPropertyAssignments :=
                  List.filter
                    (fun a =>
                       negb (String.eqb
                               (UserPropertyAssignment.userPropertyId a) id))
                    (userPropertyAssignments db) |})
      | None => (Fulfilled reply404, db)
      end
    else (Fulfilled reply404, db).
Proof.
  destruct db as [props assignments].
  unfold deleteUserProperty, try_catch, deleteTry, bind. simpl.
  unfold deleteManyAssignments, deleteMany. simpl.
  destruct (wellformed_id id) eqn:Hwf; simpl; [|reflexivity].
  rewrite gone_spec.
  destruct (props !! id) as [r|] eqn:Hid.
  - case_bool_decide as Hprot.
    + rewrite map_size_empty, map_difference_empty. simpl. unfold ret.
      rewrite filter_all.
      2:{ intros a. by rewrite lookup_empty. }
      rewrite filter_all; [reflexivity|].
      intros a. apply negb_true_iff, not_true_is_false.
      intros Hm. apply assignmentsWhere_matches in Hm as (_ & r' & Hr' & Hn).
      rewrite Hid in Hr'. injection Hr' as <-. done.
    + rewrite map_size_singleton. simpl. unfold ret. f_equal. f_equal.
      * apply map_eq. intros j. rewrite lookup_difference, lookup_delete.
        destruct (decide (id = j)) as [<-|Hne].
        -- by rewrite lookup_singleton_eq.
        -- by rewrite lookup_singleton_ne.
      * rewrite filter_filter_same.
        2:{ intros a Ha. apply negb_true_iff, bool_decide_eq_false.
            intros [x Hx]. apply lookup_singleton_Some in Hx as [Hx _].
            apply negb_true_iff in Ha. apply not_true_iff_false in Ha.
            apply Ha, assignmentsWhere_matches. split; [done|].
            by exists r. }
        apply filter_ext_bool. intros a. f_equal.
        apply eq_true_iff_eq. rewrite String.eqb_eq.
        rewrite assignmentsWhere_matches. split; [tauto|].
        intros Ha. split; [done|]. by exists r.
  - rewrite map_size_empty, map_difference_empty. simpl. unfold ret.
    rewrite filter_all.
    2:{ intros a. by rewrite lookup_empty. }
    rewrite filter_all; [reflexivity|].
    intros a. apply negb_true_iff, not_true_is_false.
    intros Hm. apply assignmentsWhere_matches in Hm as (_ & r' & Hr' & _).
    by rewrite Hid in Hr'.
Qed.

(** *** The store call of PUT *)

Abbreviation persist :=
  (@persistUserProperty Db store).
Abbreviation put_route :=
  (@putUserProperty Db store protectedUserProperties UserPropertyDefinition).
Abbreviation get_route :=
  (@getUserProperties Db store UserPropertyDefinition).
Abbreviation updateData now body :=
  {| UserPropertyUpdateInput.workspaceId := UpsertUserPropertyResource.workspaceId body;
     UserPropertyUpdateInput.name := UpsertUserPropertyResource.name body;
     UserPropertyUpdateInput.definition :=
       JObject <$> UpsertUserPropertyResource.definition body;
     UserPropertyUpdateInput.definitionUpdatedAt :=
       definitionUpdatedAt now (UpsertUserPropertyResource.definition body);
     UserPropertyUpdateInput.exampleValue :=
       UpsertUserPropertyResource.exampleValue body |}.
Abbreviation createData body :=
  {| UserPropertyCreateInput.id := UpsertUserPropertyResource.id body;
     UserPropertyCreateInput.workspaceId := UpsertUserPropertyResource.workspaceId body;
     UserPropertyCreateInput.name := UpsertUserPropertyResource.name body;
     UserPropertyCreateInput.definition :=
       JObject <$> UpsertUserPropertyResource.definition body;
     UserPropertyCreateInput.exampleValue :=
       UpsertUserPropertyResource.exampleValue body |}.
Abbreviation withProperty db id r :=
  {| userProperties := <[id := r]> (userProperties db);
     userPropertyAssignments := userPropertyAssignments db |}.

(** Both branches of PUT send the same [where], and the same data for a row
    that exists; they differ on a row that does not. *)
Lemma persist_spec now body db :
  persist now body db =
    match UpsertUserPropertyResource.id body with
    | None => (Rejected PrismaClientValidationError, db)
    | Some id =>
        if wellformed_id id then
          match userProperties db !! id with
          | Some r => updateRow id r (updateData now body) db
          | None =>
              if canCreate (UpsertUserPropertyResource.workspaceId body)
                   (UpsertUserPropertyResource.name body)
                   (UpsertUserPropertyResource.definition body)
                 && truthy_string (Some id)
              then createRow wellformed_id uuid (createData body) db
              else (Rejected (PrismaClientKnownRequestError "P2025"), db)
          end
        else (Rejected (PrismaClientKnownRequestError "P2023"), db)
    end.
Proof.
  destruct body as [id name definition workspaceId exampleValue].
  unfold persistUserProperty. simpl.
  destruct (canCreate workspaceId name definition && truthy_string id) eqn:Hc;
    simpl; unfold upsert, update; simpl.
  - destruct id as [id|]; [|by rewrite andb_false_r in Hc].
    destruct (wellformed_id id); simpl; [|reflexivity].
    simpl in Hc. rewrite Hc.
    destruct (userProperties db !! id); reflexivity.
  - destruct id as [id|]; [|reflexivity].
    destruct (wellformed_id id); simpl; [|reflexivity].
    simpl in Hc. rewrite Hc.
    destruct (userProperties db !! id); reflexivity.
Qed.

(** An update of an existing row goes through unless the new name is taken. *)
Lemma updateRow_spec id r u db :
  updateRow id r u db =
    if nameTaken id (PropertyRow.workspaceId (applyUpdate u r))
         (PropertyRow.name (applyUpdate u r)) (userProperties db)
    then (Rejected (PrismaClientKnownRequestError "P2002"), db)
    else (Fulfilled (toUserProperty id (applyUpdate u r)),
          withProperty db id (applyUpdate u r)).
Proof. reflexivity. Qed.

Lemma createRow_spec c db id workspaceId name definition :
  UserPropertyCreateInput.id c = Some id ->
  UserPropertyCreateInput.workspaceId c = Some workspaceId ->
  UserPropertyCreateInput.name c = Some name ->
  UserPropertyCreateInput.definition c = Some (JObject definition) ->
  wellformed_id id = true ->
  userProperties db !! id = None ->
  createRow wellformed_id uuid c db =
    if nameTaken id workspaceId name (userProperties db)
    then (Rejected (PrismaClientKnownRequestError "P2002"), db)
    else
      let r := insertedRow workspaceId name definition
                 (UserPropertyCreateInput.exampleValue c) in
      (Fulfilled (toUserProperty id r), withProperty db id r).
Proof.
  intros Hid Hws Hname Hdef Hwf Hfresh. unfold createRow.
  rewrite Hid, Hws, Hname, Hdef. simpl. rewrite Hwf, Hfresh. simpl.
  reflexivity.
Qed.

Lemma canCreate_inv workspaceId name definition :
  canCreate workspaceId name definition = true ->
  exists w n d, workspaceId = Some w ∧ name = Some n ∧ definition = Some d.
Proof.
  unfold canCreate.
  destruct workspaceId as [w|], name as [n|], definition as [d|]; simpl;
    rewrite ?andb_false_r; try discriminate.
  intros _. by exists w, n, d.
Qed.

(** A fulfilled store call of PUT wrote one row, under the supplied id: the
    update of the row found there, or a new row when none was. *)
Lemma persist_fulfilled_inv now body db userProperty db' :
  persist now body db = (Fulfilled userProperty, db') ->
  exists id r',
    UpsertUserPropertyResource.id body = Some id
    ∧ wellformed_id id = true
    ∧ userProperty = toUserProperty id r'
    ∧ db' = withProperty db id r'
    ∧ match userProperties db !! id with
      | Some r => r' = applyUpdate (updateData now body) r
      | None =>
          exists workspaceId name definition,
            UpsertUserPropertyResource.workspaceId body = Some workspaceId
            ∧ UpsertUserPropertyResource.name body = Some name
            ∧ UpsertUserPropertyResource.definition body = Some definition
            ∧ r' = insertedRow workspaceId name definition
                     (UpsertUserPropertyResource.exampleValue body)
      end.
Proof.
  rewrite persist_spec.
  destruct (UpsertUserPropertyResource.id body) as [id|] eqn:Hid; [|done].
  destruct (wellformed_id id) eqn:Hwf; [|done].
  destruct (userProperties db !! id) as [r|] eqn:Hrow.
  - rewrite updateRow_spec. case_match; [done|].
    intros [= <- <-]. exists id, (applyUpdate (updateData now body) r).
    by rewrite Hrow.
  - destruct (canCreate _ _ _ && _) eqn:Hc; [|done].
    apply andb_true_iff in Hc as [Hc _].
    destruct (canCreate_inv _ _ _ Hc) as (w & n & d & Hw & Hn & Hd).
    rewrite (createRow_spec _ db id w n d); simpl; rewrite ?Hd; try done.
    case_match; [done|].
    intros [= <- <-]. eexists id, _. rewrite Hrow.
    repeat split; try done. by exists w, n, d.
Qed.

(** The two calls of DELETE on the relational store: a malformed id is a
    fault of the first call; otherwise both are fulfilled, and the count of
    the second is the number of unprotected rows under that id. *)
Lemma delete_calls_malformed id db :
  wellformed_id id = false ->
  userPropertyAssignment_deleteMany (PrismaClient := store)
    (assignmentsWhere id) db
  = (Rejected (PrismaClientKnownRequestError "P2023"), db).
Proof.
  intros Hwf. simpl. unfold deleteManyAssignments. simpl. by rewrite Hwf.
Qed.

Lemma delete_calls_wellformed id db :
  wellformed_id id = true ->
  exists b db1 db2,
    userPropertyAssignment_deleteMany (PrismaClient := store)
      (assignmentsWhere id) db = (Fulfilled b, db1)
    ∧ userProperty_deleteMany (PrismaClient := store)
        (propertyWhere id) db1
      = (Fulfilled
           {| count :=
                match userProperties db !! id with
                | Some r =>
                    if bool_decide (PropertyRow.name r ∈ protectedUserProperties)
                    then 0 else 1
                | None => 0
                end |},
         db2).
Proof.
  intros Hwf. simpl. unfold deleteManyAssignments, deleteMany. simpl.
  rewrite Hwf. simpl. do 3 eexists. split; [reflexivity|].
  simpl. rewrite gone_spec. f_equal. f_equal. f_equal.
  destruct (userProperties db !! id) as [r|]; [|by rewrite map_size_empty].
  case_bool_decide; [by rewrite map_size_empty|by rewrite map_size_singleton].
Qed.

(** *** Listing *)




(** *** PUT on the relational store *)

Lemma nameTaken_false id workspaceId name (props : gmap string PropertyRow.t) :
  (forall j r,
     props !! j = Some r -> j ≠ id ->
     PropertyRow.workspaceId r = workspaceId -> PropertyRow.name r ≠ name) ->
  nameTaken id workspaceId name props = false.
Proof.
  intros Hfree. apply bool_decide_eq_false.
  intros (j & r & Hrow & Hne & Hws & Hname). by apply (Hfree j r).
Qed.

(** PUT on the id of a stored row: an update, on either branch. *)
Lemma put_route_existing now body db id r :
  has protectedUserProperties (UpsertUserPropertyResource.name body) = false ->
  UpsertUserPropertyResource.id body = Some id ->
  wellformed_id id = true ->
  userProperties db !! id = Some r ->
  let r' := applyUpdate (updateData now body) r in
  nameTaken id (PropertyRow.workspaceId r') (PropertyRow.name r') (userProperties db) = false ->
  put_route now body db
  = (Fulfilled (replyUserProperty UserPropertyDefinition (toUserProperty id r')),
     withProperty db id r').
Proof.
  intros Hhas Hid Hwf Hrow r' Hfree.
  rewrite (put_unprotected _ _ _ _ _ Hhas), persist_spec, Hid, Hwf, Hrow.
  rewrite updateRow_spec. fold r'. by rewrite Hfree.
Qed.

(** PUT on an id that is not stored, with every field of a creation. *)
Lemma put_route_fresh now body db id workspaceId name definition :
  has protectedUserProperties (UpsertUserPropertyResource.name body) = false ->
  UpsertUserPropertyResource.id body = Some id ->
  UpsertUserPropertyResource.workspaceId body = Some workspaceId ->
  UpsertUserPropertyResource.name body = Some name ->
  UpsertUserPropertyResource.definition body = Some definition ->
  truthy_string (Some id) = true ->
  truthy_string (Some workspaceId) = true ->
  truthy_string (Some name) = true ->
  wellformed_id id = true ->
  userProperties db !! id = None ->
  nameTaken id workspaceId name (userProperties db) = false ->
  let r := insertedRow workspaceId name definition
             (UpsertUserPropertyResource.exampleValue body) in
  put_route now body db
  = (Fulfilled (replyUserProperty UserPropertyDefinition (toUserProperty id r)),
     withProperty db id r).
Proof.
  intros Hhas Hid Hws Hname Hdef Tid Tws Tname Hwf Hrow Hfree r.
  rewrite (put_unprotected _ _ _ _ _ Hhas), persist_spec, Hid, Hwf, Hrow.
  unfold canCreate. rewrite Hws, Hname, Hdef, Tid, Tws, Tname. simpl.
  rewrite (createRow_spec _ db id workspaceId name definition)
    by (simpl; rewrite ?Hdef; done).
  by rewrite Hfree.
Qed.

(** PUT without a usable id creates nothing: the store call is an update. *)
Lemma put_route_without_id now body db :
  truthy_string (UpsertUserPropertyResource.id body) = false ->
  dom (userProperties (put_route now body db).2) = dom (userProperties db).
Proof.
  intros Hid.
  destruct (has protectedUserProperties (UpsertUserPropertyResource.name body))
    eqn:Hhas.
  { unfold putUserProperty. by rewrite Hhas. }
  rewrite (put_unprotected _ _ _ _ _ Hhas), persist_spec.
  destruct (UpsertUserPropertyResource.id body) as [id|]; [|done].
  destruct (wellformed_id id); [|done].
  destruct (userProperties db !! id) as [r|] eqn:Hrow.
  - rewrite updateRow_spec. destruct (nameTaken _ _ _ _); [done|]. simpl.
    rewrite dom_insert_L. apply subseteq_union_1_L, singleton_subseteq_l.
    apply elem_of_dom. by exists r.
  - by rewrite Hid, andb_false_r.
Qed.

(** A rejected store call of PUT leaves the store as it was. *)
Lemma persist_rejected_same now body db e db' :
  persist now body db = (Rejected e, db') -> db' = db.
Proof.
  rewrite persist_spec.
  destruct (UpsertUserPropertyResource.id body) as [id|]; [|by intros [= _ <-]].
  destruct (wellformed_id id); [|by intros [= _ <-]].
  destruct (userProperties db !! id) as [r|].
  - rewrite updateRow_spec.
    destruct (nameTaken _ _ _ _); [by intros [= _ <-]|done].
  - destruct (canCreate _ _ _ && _); [|by intros [= _ <-]].
    unfold createRow. simpl.
    destruct (UpsertUserPropertyResource.workspaceId body);
      [|by intros [= _ <-]].
    destruct (UpsertUserPropertyResource.name body); [|by intros [= _ <-]].
    destruct (UpsertUserPropertyResource.definition body); simpl;
      [|by intros [= _ <-]].
    destruct (negb _); [by intros [= _ <-]|].
    destruct (_ || _); [by intros [= _ <-]|done].
Qed.

(** Stamps written at time [now] keep the stamps of the store from running
    ahead of a clock that reads [now] or later. *)
Lemma stampsNotAhead_later now now' db :
  (now <= now')%Z -> stampsNotAhead now db -> stampsNotAhead now' db.
Proof.
  intros Hle Hinv id r stamp Hrow Hstamp.
  specialize (Hinv id r stamp Hrow Hstamp). lia.
Qed.

Lemma stampsNotAhead_put now body db :
  stampsNotAhead now db -> stampsNotAhead now (put_route now body db).2.
Proof.
  intros Hinv.
  destruct (put_route now body db) as [[e|reply] db'] eqn:Hput; simpl.
  - destruct (has protectedUserProperties (UpsertUserPropertyResource.name body))
      eqn:Hhas.
    { unfold putUserProperty in Hput. by rewrite Hhas in Hput. }
    rewrite (put_unprotected _ _ _ _ _ Hhas) in Hput.
    destruct (persist now body db) as [[e'|u] db1] eqn:Hstore; [|done].
    injection Hput as _ <-.
    by rewrite (persist_rejected_same _ _ _ _ _ Hstore).
  - destruct (has protectedUserProperties (UpsertUserPropertyResource.name body))
      eqn:Hhas.
    { unfold putUserProperty in Hput. rewrite Hhas in Hput.
      by injection Hput as _ <-. }
    rewrite (put_unprotected _ _ _ _ _ Hhas) in Hput.
    destruct (persist now body db) as [[e|u] db1] eqn:Hstore; [done|].
    injection Hput as _ <-.
    destruct (persist_fulfilled_inv _ _ _ _ _ Hstore)
      as (id & r' & _ & _ & _ & -> & Hrow).
    intros j r stamp Hj Hstamp. simpl in Hj.
    apply lookup_insert_Some in Hj as [[<- <-] | [_ Hj]];
      [|by apply (Hinv j r stamp)].
    destruct (userProperties db !! id) as [r0|] eqn:Hold.
    + subst r'. simpl in Hstamp.
      destruct (definitionUpdatedAt now _) as [t|] eqn:Hnow; simpl in Hstamp.
      * unfold definitionUpdatedAt in Hnow. case_match; [|done].
        injection Hnow as <-. injection Hstamp as <-. lia.
      * by apply (Hinv id r0 stamp).
    + destruct Hrow as (w & n & d & _ & _ & _ & ->). discriminate.
Qed.

Lemma stampsNotAhead_delete now body db :
  stampsNotAhead now db -> stampsNotAhead now (delete_route body db).2.
Proof.
  intros Hinv. destruct body as [id]. rewrite delete_route_spec.
  repeat case_match; simpl; try done.
  intros j r stamp Hj Hstamp. simpl in Hj.
  apply lookup_delete_Some in Hj as [_ Hj]. by apply (Hinv j r stamp).
Qed.

(** C10. PUT looks the row up by id alone. Whatever the workspace of the
    stored row, a body carrying its id together with a workspace id, a name
    that is not protected (and is free in that workspace) and a definition
    that conforms to the schema is answered 200, and the row then belongs
    to the workspace of the body. *)
Theorem put_reassigns_workspace (now : Z) (body : UpsertUserPropertyResource.t)
    (db : Db) (id : string) (r : PropertyRow.t)
    (workspaceId name : string) (definition : JsonObject) :
  userProperties db !! id = Some r ->
  UpsertUserPropertyResource.id body = Some id ->
  UpsertUserPropertyResource.workspaceId body = Some workspaceId ->
  UpsertUserPropertyResource.name body = Some name ->
  UpsertUserPropertyResource.definition body = Some definition ->
  wellformed_id id = true ->
  name ∉ protectedUserProperties ->
  (forall j r',
     userProperties db !! j = Some r' -> j ≠ id ->
     PropertyRow.workspaceId r' = workspaceId -> PropertyRow.name r' ≠ name) ->
  UserPropertyDefinition (JObject definition) = true ->
  exists r',
    put_route now body db
    = (Fulfilled
         (reply200
            {| UserPropertyResource.id := id;
               UserPropertyResource.name := name;
               UserPropertyResource.workspaceId := workspaceId;
               UserPropertyResource.definition := JObject definition;
               UserPropertyResource.exampleValue :=
                 nullish_undefined (PropertyRow.exampleValue r') |}),
       withProperty db id r')
    ∧ PropertyRow.workspaceId r' = workspaceId
    ∧ userProperties (withProperty db id r') !! id = Some r'.
Proof.
  intros Hrow Hid Hws Hname Hdef Hwf Hprot Hfree Hvalid.
  exists (applyUpdate (updateData now body) r).
  assert (Hws' : PropertyRow.workspaceId (applyUpdate (updateData now body) r)
                 = workspaceId) by (simpl; by rewrite Hws).
  assert (Hname' : PropertyRow.name (applyUpdate (updateData now body) r) = name)
    by (simpl; by rewrite Hname).
  assert (Hdef' : PropertyRow.definition (applyUpdate (updateData now body) r)
                  = JObject definition) by (simpl; by rewrite Hdef).
  split; [|split; [exact Hws'|apply lookup_insert_eq]].
  rewrite (put_route_existing now body db id r); try done.
  - rewrite respond_valid by (simpl; by rewrite Hdef).
    unfold toUserProperty. cbn [UserProperty.id UserProperty.name
      UserProperty.workspaceId UserProperty.definition UserProperty.exampleValue].
    by rewrite Hws', Hname', Hdef'.
  - rewrite Hname. simpl. by apply bool_decide_eq_false.
  - rewrite Hws', Hname'. by apply nameTaken_false.
Qed.



(** C8. The resource of a reply 200 to an upsert is made of the row the
    store call returned, which is the row stored under its id afterwards:
    its id, its name, its workspace id, its definition as validated against
    the schema, and its example value, absent when the stored one is null. *)
Theorem put_success_resource (now : Z) (body : UpsertUserPropertyResource.t)
    (db db' : Db) (reply : Reply) :
  put_route now body db = (Fulfilled reply, db') ->
  statusCode reply = 200%Z ->
  exists id r' resource,
    persist now body db = (Fulfilled (toUserProperty id r'), db')
    ∧ userProperties db' !! id = Some r'
    ∧ payload reply = ResourceBody resource
    ∧ UserPropertyResource.id resource = id
    ∧ UserPropertyResource.name resource = PropertyRow.name r'
    ∧ UserPropertyResource.workspaceId resource = PropertyRow.workspaceId r'
    ∧ schemaValidate (PropertyRow.definition r') UserPropertyDefinition
      = Ok (UserPropertyResource.definition resource)
    ∧ UserPropertyResource.exampleValue resource
      = match PropertyRow.exampleValue r' with
        | Null => None
        | Value v => Some v
        end.
Proof.
  intros Hput Hcode.
  destruct (put_fulfilled_inv _ _ _ _ _ _ _ Hput) as (_ & u & Hstore & ->).
  { rewrite Hcode. discriminate. }
  destruct (persist_fulfilled_inv _ _ _ _ _ Hstore)
    as (id & r' & _ & _ & -> & -> & _).
  destruct (respond_200_inv _ _ Hcode) as [Hvalid ->].
  eexists id, r', _. split; [exact Hstore|].
  split; [apply lookup_insert_eq|]. split; [reflexivity|]. simpl.
  repeat split. unfold schemaValidate. simpl in Hvalid. by rewrite Hvalid.
Qed.

(** C7. Deleting the id of a stored property whose name is protected is
    answered 404 and leaves the store as it was: the property row and every
    assignment, those of that property among them, are unchanged. *)
Theorem delete_protected_untouched (id : string) (r : PropertyRow.t) (db : Db) :
  userProperties db !! id = Some r ->
  PropertyRow.name r ∈ protectedUserProperties ->
  delete_route {| DeleteUserPropertyRequest.id := id |} db
  = (Fulfilled reply404, db).
Proof.
  intros Hrow Hprot. rewrite delete_route_spec, Hrow.
  rewrite (bool_decide_eq_true_2 _ Hprot). by destruct (wellformed_id id).
Qed.

(** *** Further properties of PUT on the relational store *)

Lemma nameTaken_insert id workspaceId name r (props : gmap string PropertyRow.t) :
  nameTaken id workspaceId name (<[id := r]> props)
  = nameTaken id workspaceId name props.
Proof.
  unfold nameTaken. apply bool_decide_ext. split.
  - intros (j & r0 & Hrow & Hne & Hrest). exists j, r0.
    rewrite lookup_insert_ne in Hrow by done. done.
  - intros (j & r0 & Hrow & Hne & Hrest). exists j, r0.
    rewrite lookup_insert_ne by done. done.
Qed.

(** A fulfilled store call of PUT found the name of the row it wrote free. *)
Lemma persist_fulfilled_free now body db id r' db' :
  persist now body db = (Fulfilled (toUserProperty id r'), db') ->
  nameTaken id (PropertyRow.workspaceId r') (PropertyRow.name r') (userProperties db) = false.
Proof.
  rewrite persist_spec.
  destruct (UpsertUserPropertyResource.id body) as [i|] eqn:Hid; [|done].
  destruct (wellformed_id i) eqn:Hwf; [|done].
  destruct (userProperties db !! i) as [r|] eqn:Hrow.
  - rewrite updateRow_spec.
    destruct (nameTaken _ _ _ _) eqn:Hfree; [done|].
    intros [= <- <- <- _ _ _ _]. exact Hfree.
  - destruct (canCreate _ _ _ && _) eqn:Hc; [|done].
    apply andb_true_iff in Hc as [Hc _].
    destruct (canCreate_inv _ _ _ Hc) as (w & n & d & Hw & Hn & Hd).
    rewrite (createRow_spec _ db i w n d); simpl; rewrite ?Hd; try done.
    destruct (nameTaken _ _ _ _) eqn:Hfree; [done|].
    intros [= <- <- <- _ _ _ _]. exact Hfree.
Qed.

(** The store after PUT: as it was, or with one row written under the id
    of the body. *)
Lemma put_route_state now body db :
  (put_route now body db).2 = db
  ∨ exists id r',
      UpsertUserPropertyResource.id body = Some id
      ∧ (put_route now body db).2 = withProperty db id r'.
Proof.
  destruct (has protectedUserProperties (UpsertUserPropertyResource.name body))
    eqn:Hhas.
  { left. unfold putUserProperty. by rewrite Hhas. }
  rewrite (put_unprotected _ _ _ _ _ Hhas).
  destruct (persist now body db) as [[e|u] db1] eqn:Hstore.
  - left. simpl. exact (persist_rejected_same _ _ _ _ _ Hstore).
  - right. destruct (persist_fulfilled_inv _ _ _ _ _ Hstore)
      as (id & r' & Hid & _ & _ & -> & _).
    by exists id, r'.
Qed.

(** X5. PUT creates a row only when the id, the workspace id, the name and
    the definition of the body are all present and not empty: otherwise
    the store call is an update, and the set of stored ids is the same
    after the request as before it, whatever the outcome. *)
Theorem put_creates_only_with_all_fields (now : Z)
    (body : UpsertUserPropertyResource.t) (db : Db) :
  canCreate (UpsertUserPropertyResource.workspaceId body)
    (UpsertUserPropertyResource.name body)
    (UpsertUserPropertyResource.definition body)
  && truthy_string (UpsertUserPropertyResource.id body) = false ->
  dom (userProperties (put_route now body db).2) = dom (userProperties db).
Proof.
  intros Hfields.
  destruct (has protectedUserProperties (UpsertUserPropertyResource.name body))
    eqn:Hhas.
  { unfold putUserProperty. by rewrite Hhas. }
  rewrite (put_unprotected _ _ _ _ _ Hhas), persist_spec.
  destruct (UpsertUserPropertyResource.id body) as [id|]; [|done].
  destruct (wellformed_id id); [|done].
  destruct (userProperties db !! id) as [r|] eqn:Hrow.
  - rewrite updateRow_spec. destruct (nameTaken _ _ _ _); [done|]. simpl.
    rewrite dom_insert_L. apply subseteq_union_1_L, singleton_subseteq_l.
    apply elem_of_dom. by exists r.
  - by rewrite Hfields.
Qed.

(** X6. PUT touches one row at most: the assignments are the same after
    the request as before it, and so is every row stored under an id other
    than the id of the body, whatever the outcome. *)
Theorem put_frame (now : Z) (body : UpsertUserPropertyResource.t) (db : Db) :
  userPropertyAssignments (put_route now body db).2 = userPropertyAssignments db
  ∧ forall j,
      UpsertUserPropertyResource.id body ≠ Some j ->
      userProperties (put_route now body db).2 !! j = userProperties db !! j.
Proof.
  destruct (put_route_state now body db) as [-> | (id & r' & Hid & ->)].
  - done.
  - split; [done|]. intros j Hj. simpl. apply lookup_insert_ne.
    intros ->. by destruct Hj.
Qed.

(** X7. When PUT throws, the store is as it was before the request. *)
Theorem put_throw_unchanged (now : Z) (body : UpsertUserPropertyResource.t)
    (db db' : Db) (e : Thrown) :
  put_route now body db = (Rejected e, db') -> db' = db.
Proof.
  intros Hput.
  destruct (has protectedUserProperties (UpsertUserPropertyResource.name body))
    eqn:Hhas.
  { unfold putUserProperty in Hput. by rewrite Hhas in Hput. }
  rewrite (put_unprotected _ _ _ _ _ Hhas) in Hput.
  destruct (persist now body db) as [[e'|u] db1] eqn:Hstore; [|done].
  injection Hput as _ <-. exact (persist_rejected_same _ _ _ _ _ Hstore).
Qed.

Lemma eraseStamp_inj (a b : PropertyRow.t) :
  eraseStamp a = eraseStamp b ->
  PropertyRow.definitionUpdatedAt a = PropertyRow.definitionUpdatedAt b ->
  a = b.
Proof.
  destruct a, b. unfold eraseStamp. simpl. intros [= -> -> -> ->] ->. done.
Qed.

(** Applying the data of a body a second time changes the stamp at most. *)
Lemma applyUpdate_again now now' body r :
  eraseStamp (applyUpdate (updateData now' body) (applyUpdate (updateData now body) r))
  = eraseStamp (applyUpdate (updateData now body) r).
Proof.
  unfold eraseStamp, applyUpdate. simpl.
  destruct (UpsertUserPropertyResource.workspaceId body),
    (UpsertUserPropertyResource.name body),
    (UpsertUserPropertyResource.definition body),
    (UpsertUserPropertyResource.exampleValue body); reflexivity.
Qed.

Lemma applyUpdate_inserted now' body workspaceId name definition :
  UpsertUserPropertyResource.workspaceId body = Some workspaceId ->
  UpsertUserPropertyResource.name body = Some name ->
  UpsertUserPropertyResource.definition body = Some definition ->
  eraseStamp
    (applyUpdate (updateData now' body)
       (insertedRow workspaceId name definition
          (UpsertUserPropertyResource.exampleValue body)))
  = eraseStamp
      (insertedRow workspaceId name definition
         (UpsertUserPropertyResource.exampleValue body)).
Proof.
  intros Hws Hname Hdef. unfold eraseStamp, applyUpdate, insertedRow. simpl.
  rewrite Hws, Hname, Hdef. simpl.
  by destruct (UpsertUserPropertyResource.exampleValue body).
Qed.

Lemma respond_eraseStamp id r :
  replyUserProperty UserPropertyDefinition (toUserProperty id r)
  = replyUserProperty UserPropertyDefinition (toUserProperty id (eraseStamp r)).
Proof. reflexivity. Qed.

(** X8. PUT can be sent again. When a request was answered, the same body
    sent again, at whatever time, gets the same answer; the store after
    the second request is the store after the first up to the
    [definitionUpdatedAt] stamps, and is the very same store when the body
    carries no definition. *)
Theorem put_retry (now now' : Z) (body : UpsertUserPropertyResource.t)
    (db db1 : Db) (reply : Reply) :
  put_route now body db = (Fulfilled reply, db1) ->
  exists db2,
    put_route now' body db1 = (Fulfilled reply, db2)
    ∧ eraseStamps db2 = eraseStamps db1
    ∧ (UpsertUserPropertyResource.definition body = None -> db2 = db1).
Proof.
  intros Hput.
  destruct (has protectedUserProperties (UpsertUserPropertyResource.name body))
    eqn:Hhas.
  { unfold putUserProperty in Hput |- *. rewrite Hhas in Hput |- *.
    injection Hput as <- <-. by exists db. }
  rewrite (put_unprotected _ _ _ _ _ Hhas) in Hput.
  destruct (persist now body db) as [[e|u] db0] eqn:Hstore; [done|].
  injection Hput as <- <-.
  destruct (persist_fulfilled_inv _ _ _ _ _ Hstore)
    as (id & r' & Hid & Hwf & -> & -> & Hrow).
  pose proof (persist_fulfilled_free _ _ _ _ _ _ Hstore) as Hfree.
  set (r'' := applyUpdate (updateData now' body) r').
  assert (Herase : eraseStamp r'' = eraseStamp r').
  { subst r''. destruct (userProperties db !! id) as [r|].
    - subst r'. apply applyUpdate_again.
    - destruct Hrow as (w & n & d & Hw & Hn & Hd & ->).
      by apply applyUpdate_inserted. }
  assert (Hws : PropertyRow.workspaceId r'' = PropertyRow.workspaceId r')
    by exact (f_equal PropertyRow.workspaceId Herase).
  assert (Hname : PropertyRow.name r'' = PropertyRow.name r')
    by exact (f_equal PropertyRow.name Herase).
  exists (withProperty (withProperty db id r') id r''). split; [|split].
  - rewrite (put_route_existing now' body (withProperty db id r') id r');
      try done.
    + fold r''. by rewrite (respond_eraseStamp id r''), Herase,
        <- (respond_eraseStamp id r').
    + apply lookup_insert_eq.
    + change (nameTaken id (PropertyRow.workspaceId r'') (PropertyRow.name r'')
                (<[id := r']> (userProperties db)) = false).
      by rewrite Hws, Hname, nameTaken_insert.
  - unfold eraseStamps. simpl. f_equal.
    by rewrite !fmap_insert, Herase, insert_insert_eq.
  - intros Hdef. simpl. f_equal. rewrite insert_insert_eq. f_equal.
    apply eraseStamp_inj; [exact Herase|].
    subst r''. simpl. unfold definitionUpdatedAt. by rewrite Hdef.
Qed.

(** X14. An empty name counts as missing when PUT decides between its two
    branches, yet it is written: a body that carries the id of a stored row
    and the empty string as its name, the empty string not being protected
    and not the name of another row, takes the update branch and leaves the
    row with the empty string as its name. *)
Theorem put_empty_name (now : Z) (body : UpsertUserPropertyResource.t)
    (db : Db) (id : string) (r : PropertyRow.t) :
  UpsertUserPropertyResource.id body = Some id ->
  UpsertUserPropertyResource.name body = Some EmptyString ->
  EmptyString ∉ protectedUserProperties ->
  wellformed_id id = true ->
  userProperties db !! id = Some r ->
  (forall j r0,
     userProperties db !! j = Some r0 -> j ≠ id ->
     PropertyRow.name r0 ≠ EmptyString) ->
  canCreate (UpsertUserPropertyResource.workspaceId body)
    (UpsertUserPropertyResource.name body)
    (UpsertUserPropertyResource.definition body) = false
  ∧ exists reply r',
      put_route now body db = (Fulfilled reply, withProperty db id r')
      ∧ userProperties (withProperty db id r') !! id = Some r'
      ∧ PropertyRow.name r' = EmptyString.
Proof.
  intros Hid Hname Hprot Hwf Hrow Hfree. split.
  { unfold canCreate. rewrite Hname. simpl. by rewrite andb_false_r. }
  eexists _, (applyUpdate (updateData now body) r). split; [|split].
  - apply (put_route_existing now body db id r); try done.
    + rewrite Hname. simpl. by apply bool_decide_eq_false.
    + apply nameTaken_false. intros j r0 Hj Hne _. simpl. rewrite Hname.
      simpl. by apply (Hfree j r0).
  - apply lookup_insert_eq.
  - simpl. by rewrite Hname.
Qed.

(** *** Further properties of DELETE on the relational store *)

Lemma filter_all_elem (A : Type) (f : A -> bool) (l : list A) :
  (forall a, a ∈ l -> f a = true) -> List.filter f l = l.
Proof.
  induction l as [|a l IH]; intros Hf; simpl; [reflexivity|].
  rewrite (Hf a) by apply list_elem_of_here. f_equal.
  apply IH. intros b Hb. apply Hf. by apply list_elem_of_further.
Qed.

(** X9. DELETE touches the property it names and nothing else: every row
    stored under another id is the same after the request as before it,
    and so are, in their order, the assignments of the other properties. *)
Theorem delete_frame (id : string) (db : Db) :
  (forall j,
     j ≠ id ->
     userProperties
       (delete_route {| DeleteUserPropertyRequest.id := id |} db).2 !! j
     = userProperties db !! j)
  ∧ List.filter
      (fun a => negb (String.eqb (UserPropertyAssignment.userPropertyId a) id))
      (userPropertyAssignments
         (delete_route {| DeleteUserPropertyRequest.id := id |} db).2)
    = List.filter
        (fun a => negb (String.eqb (UserPropertyAssignment.userPropertyId a) id))
        (userPropertyAssignments db).
Proof.
  rewrite delete_route_spec.
  destruct (wellformed_id id); [|done].
  destruct (userProperties db !! id) as [r|]; [|done].
  case_bool_decide; [done|]. simpl. split.
  - intros j Hj. by apply lookup_delete_ne.
  - by apply filter_filter_same.
Qed.

(** X10. DELETE answers 204 only for a well-formed id under which a row
    with an unprotected name was stored; afterwards no row is stored under
    that id and no assignment names it. *)
Theorem delete_success_effect (id : string) (db db' : Db) :
  delete_route {| DeleteUserPropertyRequest.id := id |} db
  = (Fulfilled reply204, db') ->
  wellformed_id id = true
  ∧ (exists r,
       userProperties db !! id = Some r
       ∧ PropertyRow.name r ∉ protectedUserProperties)
  ∧ userProperties db' !! id = None
  ∧ forall a,
      a ∈ userPropertyAssignments db' ->
      UserPropertyAssignment.userPropertyId a ≠ id.
Proof.
  rewrite delete_route_spec. intros Hdelete.
  destruct (wellformed_id id); [|done].
  destruct (userProperties db !! id) as [r|]; [|done].
  case_bool_decide as Hprot; [done|]. injection Hdelete as <-.
  split; [done|]. split; [by exists r|]. split; [apply lookup_delete_eq|].
  intros a Ha. simpl in Ha. apply list_elem_of_In, filter_In in Ha as [_ Ha].
  apply negb_true_iff in Ha. by apply String.eqb_neq.
Qed.

(** X11. DELETE sent a second time for the same id is answered 404 and
    leaves the store as the first request left it, whatever the first
    answer was. *)
Theorem delete_twice (id : string) (db : Db) :
  delete_route {| DeleteUserPropertyRequest.id := id |}
    (delete_route {| DeleteUserPropertyRequest.id := id |} db).2
  = (Fulfilled reply404,
     (delete_route {| DeleteUserPropertyRequest.id := id |} db).2).
Proof.
  rewrite (delete_route_spec id db).
  destruct (wellformed_id id) eqn:Hwf; simpl.
  2:{ by rewrite delete_route_spec, Hwf. }
  destruct (userProperties db !! id) as [r|] eqn:Hrow.
  - case_bool_decide as Hprot; simpl.
    + by rewrite delete_route_spec, Hwf, Hrow, (bool_decide_eq_true_2 _ Hprot).
    + rewrite delete_route_spec, Hwf. simpl. by rewrite lookup_delete_eq.
  - simpl. by rewrite delete_route_spec, Hwf, Hrow.
Qed.

(** X12. A creation undone. After a PUT that creates a row under an id
    that no assignment names, DELETE of that id is answered 204 and gives
    back the store as it was before the PUT. *)
Theorem put_then_delete (now : Z) (body : UpsertUserPropertyResource.t)
    (db : Db) (id workspaceId name : string) (definition : JsonObject) :
  UpsertUserPropertyResource.id body = Some id ->
  UpsertUserPropertyResource.workspaceId body = Some workspaceId ->
  UpsertUserPropertyResource.name body = Some name ->
  UpsertUserPropertyResource.definition body = Some definition ->
  truthy_string (Some id) = true ->
  truthy_string (Some workspaceId) = true ->
  truthy_string (Some name) = true ->
  name ∉ protectedUserProperties ->
  wellformed_id id = true ->
  userProperties db !! id = None ->
  (forall j r,
     userProperties db !! j = Some r ->
     PropertyRow.workspaceId r = workspaceId -> PropertyRow.name r ≠ name) ->
  (forall a,
     a ∈ userPropertyAssignments db ->
     UserPropertyAssignment.userPropertyId a ≠ id) ->
  userProperties (put_route now body db).2 !! id
  = Some (insertedRow workspaceId name definition
            (UpsertUserPropertyResource.exampleValue body))
  ∧ delete_route {| DeleteUserPropertyRequest.id := id |}
      (put_route now body db).2
    = (Fulfilled reply204, db).
Proof.
  intros Hid Hws Hname Hdef Tid Tws Tname Hprot Hwf Hfresh Hfree Hassign.
  rewrite (put_route_fresh now body db id workspaceId name definition);
    try done.
  2:{ rewrite Hname. simpl. by apply bool_decide_eq_false. }
  2:{ apply nameTaken_false. intros j r Hrow _. by apply (Hfree j r). }
  simpl. split; [apply lookup_insert_eq|].
  rewrite delete_route_spec, Hwf. simpl. rewrite lookup_insert_eq. simpl.
  rewrite (bool_decide_eq_false_2 _ Hprot).
  destruct db as [props assignments]. simpl in *. f_equal. f_equal.
  - by apply delete_insert_id.
  - apply filter_all_elem. intros a Ha. apply negb_true_iff, String.eqb_neq.
    by apply Hassign.
Qed.

(** X15. An id that PUT cannot use is a thrown fault where DELETE answers
    404. For a body with an unprotected name: a malformed id makes PUT
    throw P2023, and a well-formed id under which nothing is stored makes
    PUT throw P2025 unless every field of a creation is present; the store
    is unchanged, and DELETE of the same id is answered 404. *)
Theorem put_unusable_id_throws (now : Z) (body : UpsertUserPropertyResource.t)
    (db : Db) (id : string) :
  has protectedUserProperties (UpsertUserPropertyResource.name body) = false ->
  UpsertUserPropertyResource.id body = Some id ->
  (wellformed_id id = false ->
   put_route now body db
   = (Rejected (PrismaClientKnownRequestError "P2023"), db)
   ∧ delete_route {| DeleteUserPropertyRequest.id := id |} db
     = (Fulfilled reply404, db))
  ∧ (wellformed_id id = true ->
     userProperties db !! id = None ->
     canCreate (UpsertUserPropertyResource.workspaceId body)
       (UpsertUserPropertyResource.name body)
       (UpsertUserPropertyResource.definition body) = false ->
     put_route now body db
     = (Rejected (PrismaClientKnownRequestError "P2025"), db)
     ∧ delete_route {| DeleteUserPropertyRequest.id := id |} db
       = (Fulfilled reply404, db)).
Proof.
  intros Hhas Hid. split.
  - intros Hwf. split.
    + by rewrite (put_unprotected _ _ _ _ _ Hhas), persist_spec, Hid, Hwf.
    + by rewrite delete_route_spec, Hwf.
  - intros Hwf Hrow Hfields. split.
    + by rewrite (put_unprotected _ _ _ _ _ Hhas), persist_spec, Hid, Hwf,
        Hrow, Hfields.
    + by rewrite delete_route_spec, Hwf, Hrow.
Qed.

(** The row a fulfilled store call of PUT wrote, field by field. *)
Lemma persist_fulfilled_fields now body db id r' db' :
  persist now body db = (Fulfilled (toUserProperty id r'), db') ->
  (forall n, UpsertUserPropertyResource.name body = Some n -> PropertyRow.name r' = n)
  ∧ (forall w,
       UpsertUserPropertyResource.workspaceId body = Some w ->
       PropertyRow.workspaceId r' = w)
  ∧ (forall d,
       UpsertUserPropertyResource.definition body = Some d ->
       PropertyRow.definition r' = JObject d)
  ∧ (forall v,
       UpsertUserPropertyResource.exampleValue body = Some v ->
       PropertyRow.exampleValue r' = Value v)
  ∧ (UpsertUserPropertyResource.name body = None ->
     exists r, userProperties db !! id = Some r ∧ PropertyRow.name r = PropertyRow.name r').
Proof.
  intros Hstore.
  destruct (persist_fulfilled_inv _ _ _ _ _ Hstore)
    as (i & r1 & Hid & _ & Heq & _ & Hrow).
  injection Heq as -> Hws Hname Hdef Hstamp Hex.
  assert (r' = r1) as -> by (destruct r', r1; simpl in *; by subst).
  destruct (userProperties db !! i) as [r|].
  - subst r1. simpl. repeat split.
    + by intros n ->.
    + by intros w ->.
    + by intros d ->.
    + by intros v ->.
    + intros ->. by exists r.
  - destruct Hrow as (w & n & d & Hw & Hn & Hd & ->). simpl. repeat split.
    + intros n' Hn'. rewrite Hn in Hn'. by injection Hn' as ->.
    + intros w' Hw'. rewrite Hw in Hw'. by injection Hw' as ->.
    + intros d' Hd'. rewrite Hd in Hd'. by injection Hd' as ->.
    + by intros v ->.
    + intros Hnone. by rewrite Hnone in Hn.
Qed.

(** X16. What the body of a PUT supplies comes back in the resource of a
    reply 200: the id is the id of the body, and the name, the workspace
    id, the definition and the example value are those of the body whenever
    the body carries them. *)
Theorem put_echoes_body (now : Z) (body : UpsertUserPropertyResource.t)
    (db db' : Db) (resource : UserPropertyResource.t) :
  put_route now body db = (Fulfilled (reply200 resource), db') ->
  UpsertUserPropertyResource.id body = Some (UserPropertyResource.id resource)
  ∧ (forall n,
       UpsertUserPropertyResource.name body = Some n ->
       UserPropertyResource.name resource = n)
  ∧ (forall w,
       UpsertUserPropertyResource.workspaceId body = Some w ->
       UserPropertyResource.workspaceId resource = w)
  ∧ (forall d,
       UpsertUserPropertyResource.definition body = Some d ->
       UserPropertyResource.definition resource = JObject d)
  ∧ (forall v,
       UpsertUserPropertyResource.exampleValue body = Some v ->
       UserPropertyResource.exampleValue resource = Some v).
Proof.
  intros Hput.
  destruct (put_fulfilled_inv _ _ _ _ _ _ _ Hput) as (_ & u & Hstore & Hreply);
    [discriminate|].
  destruct (persist_fulfilled_inv _ _ _ _ _ Hstore)
    as (id & r' & Hid & _ & -> & _ & _).
  destruct (persist_fulfilled_fields _ _ _ _ _ _ Hstore)
    as (Hname & Hws & Hdef & Hex & _).
  assert (Hcode :
    statusCode (replyUserProperty UserPropertyDefinition (toUserProperty id r'))
    = 200%Z) by (by rewrite <- Hreply).
  destruct (respond_200_inv _ _ Hcode) as [_ Hshape].
  rewrite Hshape in Hreply. injection Hreply as ->. simpl.
  split; [exact Hid|]. split; [exact Hname|]. split; [exact Hws|].
  split; [exact Hdef|]. intros v Hv. by rewrite (Hex v Hv).
Qed.

(** X17. PUT validates after it has written. A reply 500 means that the
    store call was fulfilled: the row is stored under the id of the body,
    with a definition that does not validate, which is the definition of
    the body when the body carries one. *)
Theorem put_500_persisted (now : Z) (body : UpsertUserPropertyResource.t)
    (db db' : Db) :
  put_route now body db = (Fulfilled reply500, db') ->
  exists id r',
    UpsertUserPropertyResource.id body = Some id
    ∧ userProperties db' !! id = Some r'
    ∧ UserPropertyDefinition (PropertyRow.definition r') = false
    ∧ forall d,
        UpsertUserPropertyResource.definition body = Some d ->
        PropertyRow.definition r' = JObject d.
Proof.
  intros Hput.
  destruct (put_fulfilled_inv _ _ _ _ _ _ _ Hput) as (_ & u & Hstore & Hreply);
    [discriminate|].
  destruct (persist_fulfilled_inv _ _ _ _ _ Hstore)
    as (id & r' & Hid & _ & -> & -> & _).
  destruct (persist_fulfilled_fields _ _ _ _ _ _ Hstore)
    as (_ & _ & Hdef & _ & _).
  exists id, r'. split; [exact Hid|]. split; [apply lookup_insert_eq|].
  split; [|exact Hdef].
  unfold replyUserProperty, schemaValidate in Hreply. simpl in Hreply.
  by destruct (UserPropertyDefinition (PropertyRow.definition r')).
Qed.

(** X18. PUT gives no row a protected name: a row that bears a protected
    name after the request was stored under the same id with the same name
    before it, so that no property is created with a protected name and
    none is renamed into one. *)
Theorem put_no_new_protected_name (now : Z)
    (body : UpsertUserPropertyResource.t) (db : Db) (j : string) (r' : PropertyRow.t) :
  userProperties (put_route now body db).2 !! j = Some r' ->
  PropertyRow.name r' ∈ protectedUserProperties ->
  exists r, userProperties db !! j = Some r ∧ PropertyRow.name r = PropertyRow.name r'.
Proof.
  intros Hafter Hprot.
  destruct (has protectedUserProperties (UpsertUserPropertyResource.name body))
    eqn:Hhas.
  { unfold putUserProperty in Hafter. rewrite Hhas in Hafter. by exists r'. }
  rewrite (put_unprotected _ _ _ _ _ Hhas) in Hafter.
  destruct (persist now body db) as [[e|u] db1] eqn:Hstore; simpl in Hafter.
  { rewrite (persist_rejected_same _ _ _ _ _ Hstore) in Hafter. by exists r'. }
  destruct (persist_fulfilled_inv _ _ _ _ _ Hstore)
    as (id & r1 & _ & _ & -> & -> & _).
  simpl in Hafter.
  apply lookup_insert_Some in Hafter as [[<- <-] | [_ Hafter]];
    [|by exists r'].
  destruct (persist_fulfilled_fields _ _ _ _ _ _ Hstore)
    as (Hname & _ & _ & _ & Hkept).
  destruct (UpsertUserPropertyResource.name body) as [n|] eqn:Hn.
  - rewrite (Hname n eq_refl) in Hprot. simpl in Hhas.
    by apply bool_decide_eq_false in Hhas.
  - by apply Hkept.
Qed.

(** *** Every route *)

Abbreviation controller :=
  (@userPropertiesController Db store protectedUserProperties
     UserPropertyDefinition).

(** X13. No route writes a stamp ahead of the clock: when no stored
    [definitionUpdatedAt] is later than the time of a request, none is
    after the request either, whichever route serves it and whatever the
    outcome; and the same holds at any later time. *)
Theorem controller_stamps (now later : Z) (request : Request) (db : Db) :
  stampsNotAhead now db ->
  (now <= later)%Z ->
  stampsNotAhead later (controller now request db).2.
Proof.
  intros Hinv Hle. apply (stampsNotAhead_later now later); [exact Hle|].
  destruct request as [body|workspaceId|body]; simpl.
  - by apply stampsNotAhead_put.
  - exact Hinv.
  - by apply stampsNotAhead_delete.
Qed.

End OnRelationalStore.

(** Witness of C7: the protected property [id] of the sample store. *)
Lemma delete_protected_untouched_witness :
  userProperties Sample.db !! Sample.property1
  = Some
      {| PropertyRow.workspaceId := Sample.workspace1;
         PropertyRow.name := "id";
         PropertyRow.definition := JObject [("type", JString "Id")];
         PropertyRow.definitionUpdatedAt := Value 100;
         PropertyRow.exampleValue := Null |}
  ∧ "id" ∈ Sample.protectedUserProperties
  ∧ Sample.deleteRoute {| DeleteUserPropertyRequest.id := Sample.property1 |}
      Sample.db
    = (Fulfilled reply404, Sample.db).
Proof.
  assert (Hrow : userProperties Sample.db !! Sample.property1
                 = Some
                     {| PropertyRow.workspaceId := Sample.workspace1;
                        PropertyRow.name := "id";
                        PropertyRow.definition := JObject [("type", JString "Id")];
                        PropertyRow.definitionUpdatedAt := Value 100;
                        PropertyRow.exampleValue := Null |}) by reflexivity.
  assert (Hprot : "id" ∈ Sample.protectedUserProperties) by set_solver.
  split; [exact Hrow|]. split; [exact Hprot|].
  exact (delete_protected_untouched Sample.wellformed_id Sample.uuid
           Sample.protectedUserProperties Sample.property1 _ Sample.db
           Hrow Hprot).
Defined.

(** ** Runs on the sample store *)

(** Witness of C6: the store seeded with a malformed definition; an update
    of the example value alone is persisted and answered 500. *)
Lemma put_invalid_stored_definition_witness :
  exists userProperty db',
    persistUserProperty (prisma := Sample.store) 200
      Sample.exampleOnlyBody Sample.seededDb = (Fulfilled userProperty, db')
    ∧ UserProperty.definition userProperty = JString "not a definition"
    ∧ Sample.putRoute 200 Sample.exampleOnlyBody Sample.seededDb
      = (Fulfilled reply500, db').
Proof.
  eexists. eexists. split; [reflexivity|]. split; [reflexivity|].
  apply (put_invalid_stored_definition (store := Sample.store)
           Sample.protectedUserProperties Sample.UserPropertyDefinition
           200 Sample.exampleOnlyBody Sample.seededDb _ _ eq_refl eq_refl).
  reflexivity.
Defined.

(** Witness of C9: the resource of an update of the sample property
    [email]. *)
Lemma put_resource_revalidates_witness :
  exists resource db',
    Sample.putRoute 200 Sample.exampleOnlyBody Sample.db
    = (Fulfilled (reply200 resource), db')
    ∧ schemaValidate (UserPropertyResource.definition resource)
        Sample.UserPropertyDefinition
      = Ok (JObject Sample.traitEmail).
Proof.
  eexists. eexists. split; [reflexivity|].
  eapply (put_resource_revalidates (store := Sample.store)
            Sample.protectedUserProperties Sample.UserPropertyDefinition
            200 Sample.exampleOnlyBody Sample.db).
  reflexivity.
Defined.

(** No row of the sample store belongs to workspace 2. *)
Lemma sample_workspace2_empty (j : string) (r : PropertyRow.t) :
  userProperties Sample.db !! j = Some r ->
  PropertyRow.workspaceId r ≠ Sample.workspace2.
Proof.
  unfold Sample.db. simpl. intros Hrow.
  apply lookup_insert_Some in Hrow as [[_ <-] | [_ Hrow]]; [discriminate|].
  apply lookup_insert_Some in Hrow as [[_ <-] | [_ Hrow]]; [discriminate|].
  by rewrite lookup_empty in Hrow.
Qed.

(** Witness of C10: the sample property [email] of workspace 1 is moved to
    workspace 2 by a body that carries its id. *)
Lemma put_reassigns_workspace_witness :
  (exists r,
     userProperties Sample.db !! Sample.property2 = Some r
     ∧ PropertyRow.workspaceId r = Sample.workspace1)
  ∧ Sample.workspace1 ≠ Sample.workspace2
  ∧ exists r',
      Sample.putRoute 200 (Sample.phoneBody (Some Sample.property2)) Sample.db
      = (Fulfilled
           (reply200
              {| UserPropertyResource.id := Sample.property2;
                 UserPropertyResource.name := "phone";
                 UserPropertyResource.workspaceId := Sample.workspace2;
                 UserPropertyResource.definition := JObject Sample.traitPhone;
                 UserPropertyResource.exampleValue :=
                   nullish_undefined (PropertyRow.exampleValue r') |}),
         {| userProperties := <[Sample.property2 := r']> (userProperties Sample.db);
            userPropertyAssignments := userPropertyAssignments Sample.db |})
      ∧ PropertyRow.workspaceId r' = Sample.workspace2
      ∧ userProperties
          {| userProperties := <[Sample.property2 := r']> (userProperties Sample.db);
             userPropertyAssignments := userPropertyAssignments Sample.db |}
        !! Sample.property2 = Some r'.
Proof.
  split; [eexists; split; reflexivity|]. split; [discriminate|].
  eapply (put_reassigns_workspace Sample.wellformed_id Sample.uuid
            Sample.protectedUserProperties Sample.UserPropertyDefinition
            200 (Sample.phoneBody (Some Sample.property2)) Sample.db
            Sample.property2 _ Sample.workspace2 "phone" Sample.traitPhone).
  - reflexivity.
  - reflexivity.
  - reflexivity.
  - reflexivity.
  - reflexivity.
  - reflexivity.
  - intros Hin. apply (bool_decide_pack ("phone" ∈ Sample.protectedUserProperties))
      in Hin. vm_compute in Hin. exact Hin.
  - intros j r' Hrow _ Hws. by destruct (sample_workspace2_empty j r' Hrow).
  - reflexivity.
Defined.




(** Witness of C8: the resource of an update of the example value of the
    sample property [email]. *)
Lemma put_success_resource_witness :
  exists id r' resource,
    userProperties
      {| userProperties := <[Sample.property2 := Sample.exampleRow]>
                             (userProperties Sample.db);
         userPropertyAssignments := userPropertyAssignments Sample.db |}
    !! id = Some r'
    ∧ payload (reply200 Sample.exampleResource) = ResourceBody resource
    ∧ UserPropertyResource.id resource = id
    ∧ UserPropertyResource.name resource = PropertyRow.name r'
    ∧ UserPropertyResource.workspaceId resource = PropertyRow.workspaceId r'
    ∧ UserPropertyResource.exampleValue resource
      = match PropertyRow.exampleValue r' with
        | Null => None
        | Value v => Some v
        end.
Proof.
  assert (Hput :
    Sample.putRoute 200 Sample.exampleOnlyBody Sample.db
    = (Fulfilled (reply200 Sample.exampleResource),
       {| userProperties := <[Sample.property2 := Sample.exampleRow]>
                              (userProperties Sample.db);
          userPropertyAssignments := userPropertyAssignments Sample.db |}))
    by (vm_compute; reflexivity).
  destruct (put_success_resource Sample.wellformed_id Sample.uuid
              Sample.protectedUserProperties Sample.UserPropertyDefinition
              200 Sample.exampleOnlyBody Sample.db _ _ Hput eq_refl)
    as (id & r' & resource & _ & Hrow & Hpayload & Hid & Hname & Hws & _ & Hex).
  exists id, r', resource. by repeat split.
Defined.

(** C1, on the code. The protected-name check of PUT reads the name of the
    body, not the name of the stored row. On the sample store the property
    [id], a protected name, is stored under [property1]; a body carrying
    that id and another name is answered 200 and rewrites the workspace id,
    the name, the definition and [definitionUpdatedAt] of the row, and a
    body carrying that id and no name at all rewrites its example value. *)
Theorem put_rewrites_protected_row :
  (exists r,
     userProperties Sample.db !! Sample.property1 = Some r
     ∧ PropertyRow.name r = "id"
     ∧ PropertyRow.name r ∈ Sample.protectedUserProperties)
  ∧ (exists reply db',
       Sample.putRoute 200 Sample.renameBody Sample.db = (Fulfilled reply, db')
       ∧ statusCode reply = 200%Z
       ∧ userProperties db' !! Sample.property1
         = Some
             {| PropertyRow.workspaceId := Sample.workspace2;
                PropertyRow.name := "renamed";
                PropertyRow.definition := JObject Sample.traitPhone;
                PropertyRow.definitionUpdatedAt := Value 200%Z;
                PropertyRow.exampleValue := Null |})
  ∧ (exists reply db',
       Sample.putRoute 200
         {| UpsertUserPropertyResource.id := Some Sample.property1;
            UpsertUserPropertyResource.name := None;
            UpsertUserPropertyResource.definition := None;
            UpsertUserPropertyResource.workspaceId := None;
            UpsertUserPropertyResource.exampleValue := Some (JString "x") |}
         Sample.db = (Fulfilled reply, db')
       ∧ statusCode reply = 200%Z
       ∧ userProperties db' !! Sample.property1
         = Some
             {| PropertyRow.workspaceId := Sample.workspace1;
                PropertyRow.name := "id";
                PropertyRow.definition := JObject [("type", JString "Id")];
                PropertyRow.definitionUpdatedAt := Value 100%Z;
                PropertyRow.exampleValue := Value (JString "x") |}).
Proof.
  split; [|split].
  - eexists. split; [vm_compute; reflexivity|]. split; [reflexivity|].
    simpl. set_solver.
  - eexists. eexists. split; [vm_compute; reflexivity|].
    split; vm_compute; reflexivity.
  - eexists. eexists. split; [vm_compute; reflexivity|].
    split; vm_compute; reflexivity.
Qed.

(** C3. The result of DELETE. Over any store: a fault of either
    [deleteMany] call that is a known request error with code P2025 (record
    not found) or P2023 (malformed identifier) is answered 404, and any
    other fault is thrown again unchanged; when both calls are fulfilled, a
    count of deleted property rows of zero (or less) is answered 404 and a
    count of at least one is answered 204 with an empty body. On the
    relational store the count is zero exactly when no row has that id or
    the row that has it bears a protected name, which is then answered 404,
    and a malformed id is answered 404 through the P2023 fault. *)
Theorem delete_result (protectedUserProperties : gset string) (id : string) :
  (forall (S : Type) (store : PrismaClient S) (s : S),
     let assignmentsWhere :=
       AssignmentAND
         [ AssignmentUserPropertyId (equals id);
           AssignmentUserProperty
             (WhereName (notIn (elements protectedUserProperties))) ] in
     let propertyWhere :=
       WhereAND
         [ WhereId (equals id);
           WhereName (notIn (elements protectedUserProperties)) ] in
     let result :=
       deleteUserProperty protectedUserProperties
         {| DeleteUserPropertyRequest.id := id |} s in
     (forall e s1,
        userPropertyAssignment_deleteMany assignmentsWhere s = (Rejected e, s1) ->
        (notFoundFault e -> result = (Fulfilled reply404, s1))
        ∧ (¬ notFoundFault e -> result = (Rejected e, s1)))
     ∧ (forall b s1 e s2,
          userPropertyAssignment_deleteMany assignmentsWhere s = (Fulfilled b, s1) ->
          userProperty_deleteMany propertyWhere s1 = (Rejected e, s2) ->
          (notFoundFault e -> result = (Fulfilled reply404, s2))
          ∧ (¬ notFoundFault e -> result = (Rejected e, s2)))
     ∧ (forall b s1 response s2,
          userPropertyAssignment_deleteMany assignmentsWhere s = (Fulfilled b, s1) ->
          userProperty_deleteMany propertyWhere s1 = (Fulfilled response, s2) ->
          ((count response <= 0)%Z -> result = (Fulfilled reply404, s2))
          ∧ ((1 <= count response)%Z ->
             result
             = (Fulfilled {| statusCode := 204; payload := EmptyBody |}, s2))))
  ∧ (forall (wellformed_id : string -> bool)
       (uuid : gmap string PropertyRow.t -> string) (db : Db),
       let store := relationalStore wellformed_id uuid in
       let result :=
         @deleteUserProperty Db store protectedUserProperties
           {| DeleteUserPropertyRequest.id := id |} db in
       let unaffected :=
         userProperties db !! id = None
         ∨ exists r,
             userProperties db !! id = Some r
             ∧ PropertyRow.name r ∈ protectedUserProperties in
       (unaffected -> result = (Fulfilled reply404, db))
       ∧ (wellformed_id id = false -> result = (Fulfilled reply404, db))
       ∧ (wellformed_id id = true ->
          exists b db1 response db2,
            @userPropertyAssignment_deleteMany Db store
              (AssignmentAND
                 [ AssignmentUserPropertyId (equals id);
                   AssignmentUserProperty
                     (WhereName (notIn (elements protectedUserProperties))) ])
              db = (Fulfilled b, db1)
            ∧ @userProperty_deleteMany Db store
                (WhereAND
                   [ WhereId (equals id);
                     WhereName (notIn (elements protectedUserProperties)) ])
                db1 = (Fulfilled response, db2)
            ∧ (count response = 0%Z <-> unaffected))
       ∧ (wellformed_id id = true -> ¬ unaffected ->
          exists db',
            result = (Fulfilled reply204, db')
            ∧ userProperties db' !! id = None)).
Proof.
  split.
  - intros S store s assignmentsWhere propertyWhere result.
    pose proof (deleteTry_calls protectedUserProperties id s) as Htry.
    fold assignmentsWhere propertyWhere in Htry.
    split; [|split].
    + intros e s1 Hfirst. rewrite Hfirst in Htry.
      exact (deleteUserProperty_fault _ _ _ _ _ Htry).
    + intros b s1 e s2 Hfirst Hsecond. rewrite Hfirst, Hsecond in Htry.
      exact (deleteUserProperty_fault _ _ _ _ _ Htry).
    + intros b s1 response s2 Hfirst Hsecond.
      rewrite Hfirst, Hsecond in Htry. subst result.
      rewrite (deleteUserProperty_count _ _ _ _ _ Htry). split.
      * intros Hle. by rewrite (proj2 (Z.leb_le _ _) Hle).
      * intros Hge. rewrite (proj2 (Z.leb_gt _ _)); [done|lia].
  - intros wellformed_id uuid db store result unaffected.
    subst result store. rewrite delete_route_spec.
    split; [|split; [|split]].
    + intros [Hnone | (r & Hr & Hprot)].
      * rewrite Hnone. by destruct (wellformed_id id).
      * rewrite Hr, (bool_decide_eq_true_2 _ Hprot).
        by destruct (wellformed_id id).
    + by intros ->.
    + intros Hwf.
      destruct (delete_calls_wellformed wellformed_id uuid
                  protectedUserProperties id db Hwf)
        as (b & db1 & db2 & Hfirst & Hsecond).
      eexists b, db1, _, db2. split; [exact Hfirst|]. split; [exact Hsecond|].
      simpl. subst unaffected.
      destruct (userProperties db !! id) as [r|] eqn:Hrow.
      * case_bool_decide as Hprot.
        -- split; [|done]. intros _. right. by exists r.
        -- split; [done|]. intros [Hn | (r' & Hr' & Hp)]; [done|].
           injection Hr' as <-. done.
      * split; [|done]. intros _. by left.
    + intros Hwf Haffected. rewrite Hwf. subst unaffected.
      destruct (userProperties db !! id) as [r|] eqn:Hrow.
      * case_bool_decide as Hprot.
        -- destruct Haffected. right. by exists r.
        -- eexists. split; [reflexivity|]. simpl. apply lookup_delete_eq.
      * destruct Haffected. by left.
Qed.

(** Witness of C3: on the sample store, deleting the unprotected property
    [email] is answered 204 and deleting the protected property [id] is
    answered 404. *)
Lemma delete_result_witness :
  Sample.deleteRoute {| DeleteUserPropertyRequest.id := Sample.property1 |}
    Sample.db = (Fulfilled reply404, Sample.db)
  ∧ exists db',
      Sample.deleteRoute {| DeleteUserPropertyRequest.id := Sample.property2 |}
        Sample.db = (Fulfilled reply204, db')
      ∧ userProperties db' !! Sample.property2 = None.
Proof.
  split.
  - destruct (proj2 (delete_result Sample.protectedUserProperties
                       Sample.property1)
                Sample.wellformed_id Sample.uuid Sample.db)
      as (Hunaffected & _).
    apply Hunaffected. right. eexists. split; [reflexivity|]. set_solver.
  - destruct (proj2 (delete_result Sample.protectedUserProperties
                       Sample.property2)
                Sample.wellformed_id Sample.uuid Sample.db)
      as (_ & _ & _ & Haffected).
    apply Haffected.
    + reflexivity.
    + intros [Hnone | (r & Hr & Hprot)]; [discriminate|].
      injection Hr as <-.
      apply (bool_decide_pack ("email" ∈ Sample.protectedUserProperties))
        in Hprot.
      vm_compute in Hprot. exact Hprot.
Defined.

(** ** Further runs on the sample store *)

(** The two rows of the sample store. *)
Lemma sample_rows (j : string) (r : PropertyRow.t) :
  userProperties Sample.db !! j = Some r ->
  (j = Sample.property1 ∧ PropertyRow.name r = "id"
   ∧ PropertyRow.definitionUpdatedAt r = Value 100%Z)
  ∨ (j = Sample.property2 ∧ r = Sample.emailRow).
Proof.
  unfold Sample.db. simpl. intros Hrow.
  apply lookup_insert_Some in Hrow as [[<- <-] | [_ Hrow]]; [by left|].
  apply lookup_insert_Some in Hrow as [[<- <-] | [_ Hrow]]; [by right|].
  by rewrite lookup_empty in Hrow.
Qed.

Lemma sample_unprotected (name : string) :
  bool_decide (name ∈ Sample.protectedUserProperties) = false ->
  name ∉ Sample.protectedUserProperties.
Proof. apply bool_decide_eq_false. Qed.

(** Witness of X1: the update of the example value of [email] is answered
    200 after a fulfilled store call. *)
Lemma put_reply_codes_witness :
  has Sample.protectedUserProperties
    (UpsertUserPropertyResource.name Sample.exampleOnlyBody) = false
  ∧ exists userProperty,
      persistUserProperty (prisma := Sample.store) 200 Sample.exampleOnlyBody
        Sample.db
      = (Fulfilled userProperty,
         (Sample.putRoute 200 Sample.exampleOnlyBody Sample.db).2).
Proof.
  destruct (put_reply_codes (store := Sample.store)
              Sample.protectedUserProperties Sample.UserPropertyDefinition
              200 Sample.exampleOnlyBody Sample.db
              (Sample.putRoute 200 Sample.exampleOnlyBody Sample.db).2
              (reply200 Sample.exampleResource))
    as [(_ & Hreply & _) | (Hhas & u & Hstore & _)].
  - vm_compute. reflexivity.
  - discriminate Hreply.
  - split; [exact Hhas|]. by exists u.
Defined.

(** Witness of X2: an update of an id that the empty store does not hold
    throws the P2025 of the store call. *)
Lemma put_throws_store_fault_witness :
  has Sample.protectedUserProperties
    (UpsertUserPropertyResource.name Sample.exampleOnlyBody) = false
  ∧ persistUserProperty (prisma := Sample.store) 200 Sample.exampleOnlyBody
      Sample.emptyDb
    = (Rejected (PrismaClientKnownRequestError "P2025"), Sample.emptyDb).
Proof.
  apply (proj1 (put_throws_store_fault (store := Sample.store)
                  Sample.protectedUserProperties Sample.UserPropertyDefinition
                  200 Sample.exampleOnlyBody Sample.emptyDb Sample.emptyDb
                  (PrismaClientKnownRequestError "P2025"))).
  vm_compute. reflexivity.
Defined.

(** Witness of X3: the deletion of [email] is answered 204. *)
Lemma delete_outcomes_witness :
  reply204 = reply404 ∨ reply204 = reply204.
Proof.
  apply (delete_outcomes (store := Sample.store)
           Sample.protectedUserProperties Sample.property2 Sample.db
           (Sample.deleteRoute
              {| DeleteUserPropertyRequest.id := Sample.property2 |}
              Sample.db).2
           (Fulfilled reply204)).
  vm_compute. reflexivity.
Defined.

(** Witness of X5: a body with an example value alone adds no id. *)
Lemma put_creates_only_with_all_fields_witness :
  dom (userProperties (Sample.putRoute 200 Sample.exampleOnlyBody Sample.db).2)
  = dom (userProperties Sample.db).
Proof.
  apply (put_creates_only_with_all_fields Sample.wellformed_id Sample.uuid
           Sample.protectedUserProperties Sample.UserPropertyDefinition
           200 Sample.exampleOnlyBody Sample.db).
  reflexivity.
Defined.

(** Witness of X6: an update of [email] leaves the row of [id] as it was. *)
Lemma put_frame_witness :
  userProperties (Sample.putRoute 200 Sample.exampleOnlyBody Sample.db).2
  !! Sample.property1
  = userProperties Sample.db !! Sample.property1.
Proof.
  apply (proj2 (put_frame Sample.wellformed_id Sample.uuid
                  Sample.protectedUserProperties Sample.UserPropertyDefinition
                  200 Sample.exampleOnlyBody Sample.db)).
  discriminate.
Defined.

(** Witness of X7: the rejected update on the empty store. *)
Lemma put_throw_unchanged_witness :
  (Sample.putRoute 200 Sample.exampleOnlyBody Sample.emptyDb).2 = Sample.emptyDb.
Proof.
  apply (put_throw_unchanged Sample.wellformed_id Sample.uuid
           Sample.protectedUserProperties Sample.UserPropertyDefinition
           200 Sample.exampleOnlyBody Sample.emptyDb
           (Sample.putRoute 200 Sample.exampleOnlyBody Sample.emptyDb).2
           (PrismaClientKnownRequestError "P2025")).
  vm_compute. reflexivity.
Defined.

(** Witness of X8: the move of [email] to workspace 2, sent again later. *)
Lemma put_retry_witness :
  exists db2,
    Sample.putRoute 300 (Sample.phoneBody (Some Sample.property2))
      (Sample.putRoute 200 (Sample.phoneBody (Some Sample.property2)) Sample.db).2
    = (Fulfilled (reply200 Sample.movedResource), db2)
    ∧ eraseStamps db2
      = eraseStamps
          (Sample.putRoute 200 (Sample.phoneBody (Some Sample.property2))
             Sample.db).2.
Proof.
  destruct (put_retry Sample.wellformed_id Sample.uuid
              Sample.protectedUserProperties Sample.UserPropertyDefinition
              200 300 (Sample.phoneBody (Some Sample.property2)) Sample.db
              (Sample.putRoute 200 (Sample.phoneBody (Some Sample.property2))
                 Sample.db).2
              (reply200 Sample.movedResource))
    as (db2 & Hput & Herase & _).
  - vm_compute. reflexivity.
  - exists db2. split; [exact Hput | exact Herase].
Defined.

(** Witness of X9: the deletion of [email] leaves the row of [id]. *)
Lemma delete_frame_witness :
  userProperties
    (Sample.deleteRoute {| DeleteUserPropertyRequest.id := Sample.property2 |}
       Sample.db).2 !! Sample.property1
  = userProperties Sample.db !! Sample.property1.
Proof.
  apply (proj1 (delete_frame Sample.wellformed_id Sample.uuid
                  Sample.protectedUserProperties Sample.property2 Sample.db)).
  discriminate.
Defined.

(** Witness of X10: the deletion of [email]. *)
Lemma delete_success_effect_witness :
  userProperties
    (Sample.deleteRoute {| DeleteUserPropertyRequest.id := Sample.property2 |}
       Sample.db).2 !! Sample.property2 = None.
Proof.
  apply (delete_success_effect Sample.wellformed_id Sample.uuid
           Sample.protectedUserProperties Sample.property2 Sample.db
           (Sample.deleteRoute
              {| DeleteUserPropertyRequest.id := Sample.property2 |}
              Sample.db).2).
  vm_compute. reflexivity.
Defined.

(** Witness of X12: a creation on the empty store, undone. *)
Lemma put_then_delete_witness :
  Sample.deleteRoute {| DeleteUserPropertyRequest.id := Sample.property1 |}
    (Sample.putRoute 200 (Sample.phoneBody (Some Sample.property1))
       Sample.emptyDb).2
  = (Fulfilled reply204, Sample.emptyDb).
Proof.
  apply (put_then_delete Sample.wellformed_id Sample.uuid
           Sample.protectedUserProperties Sample.UserPropertyDefinition
           200 (Sample.phoneBody (Some Sample.property1)) Sample.emptyDb
           Sample.property1 Sample.workspace2 "phone" Sample.traitPhone);
    try reflexivity.
  - apply sample_unprotected. vm_compute. reflexivity.
  - intros j r Hrow. simpl in Hrow. by rewrite lookup_empty in Hrow.
  - intros a Ha. simpl in Ha. by apply not_elem_of_nil in Ha.
Defined.

(** Witness of X13: the sample store, stamped 100, after the renaming
    request of time 200, seen at time 300. *)
Lemma controller_stamps_witness :
  stampsNotAhead 300
    (@userPropertiesController Db Sample.store Sample.protectedUserProperties
       Sample.UserPropertyDefinition 200 (PUT Sample.renameBody) Sample.db).2.
Proof.
  apply (controller_stamps Sample.wellformed_id Sample.uuid
           Sample.protectedUserProperties Sample.UserPropertyDefinition
           200 300 (PUT Sample.renameBody) Sample.db).
  - intros id r stamp Hrow Hstamp.
    destruct (sample_rows id r Hrow) as [(_ & _ & Hr) | (_ & ->)].
    + rewrite Hr in Hstamp. injection Hstamp as <-. lia.
    + simpl in Hstamp. injection Hstamp as <-. lia.
  - lia.
Defined.

(** Witness of X14: [email] renamed to the empty string. *)
Lemma put_empty_name_witness :
  exists reply r',
    Sample.putRoute 200
      {| UpsertUserPropertyResource.id := Some Sample.property2;
         UpsertUserPropertyResource.name := Some EmptyString;
         UpsertUserPropertyResource.definition := Some Sample.traitEmail;
         UpsertUserPropertyResource.workspaceId := Some Sample.workspace1;
         UpsertUserPropertyResource.exampleValue := None |}
      Sample.db
    = (Fulfilled reply,
       {| userProperties := <[Sample.property2 := r']> (userProperties Sample.db);
          userPropertyAssignments := userPropertyAssignments Sample.db |})
    ∧ PropertyRow.name r' = EmptyString.
Proof.
  destruct (put_empty_name Sample.wellformed_id Sample.uuid
              Sample.protectedUserProperties Sample.UserPropertyDefinition
              200
              {| UpsertUserPropertyResource.id := Some Sample.property2;
                 UpsertUserPropertyResource.name := Some EmptyString;
                 UpsertUserPropertyResource.definition := Some Sample.traitEmail;
                 UpsertUserPropertyResource.workspaceId := Some Sample.workspace1;
                 UpsertUserPropertyResource.exampleValue := None |}
              Sample.db Sample.property2 Sample.emailRow)
    as (_ & reply & r' & Hput & _ & Hname); try reflexivity.
  - apply sample_unprotected. vm_compute. reflexivity.
  - intros j r0 Hrow Hne.
    destruct (sample_rows j r0 Hrow) as [(_ & Hr & _) | (-> & _)].
    + by rewrite Hr.
    + by destruct Hne.
  - exists reply, r'. split; [exact Hput | exact Hname].
Defined.

(** Witness of X15: the malformed id [zz]. *)
Lemma put_unusable_id_throws_witness :
  Sample.putRoute 200 (Sample.phoneBody (Some "zz")) Sample.db
  = (Rejected (PrismaClientKnownRequestError "P2023"), Sample.db)
  ∧ Sample.deleteRoute {| DeleteUserPropertyRequest.id := "zz" |} Sample.db
    = (Fulfilled reply404, Sample.db).
Proof.
  apply (proj1 (put_unusable_id_throws Sample.wellformed_id Sample.uuid
                  Sample.protectedUserProperties Sample.UserPropertyDefinition
                  200 (Sample.phoneBody (Some "zz")) Sample.db "zz"
                  eq_refl eq_refl)).
  reflexivity.
Defined.

(** Witness of X16: the move of [email] answers with the name of the body. *)
Lemma put_echoes_body_witness :
  UserPropertyResource.name Sample.movedResource = "phone".
Proof.
  apply (proj1 (proj2
           (put_echoes_body Sample.wellformed_id Sample.uuid
              Sample.protectedUserProperties Sample.UserPropertyDefinition
              200 (Sample.phoneBody (Some Sample.property2)) Sample.db
              (Sample.putRoute 200 (Sample.phoneBody (Some Sample.property2))
                 Sample.db).2
              Sample.movedResource
              ltac:(vm_compute; reflexivity)))).
  reflexivity.
Defined.

(** Witness of X17: the seeded store, whose definition does not validate. *)
Lemma put_500_persisted_witness :
  exists id r',
    UpsertUserPropertyResource.id Sample.exampleOnlyBody = Some id
    ∧ userProperties
        (Sample.putRoute 200 Sample.exampleOnlyBody Sample.seededDb).2 !! id
      = Some r'
    ∧ Sample.UserPropertyDefinition (PropertyRow.definition r') = false.
Proof.
  destruct (put_500_persisted Sample.wellformed_id Sample.uuid
              Sample.protectedUserProperties Sample.UserPropertyDefinition
              200 Sample.exampleOnlyBody Sample.seededDb
              (Sample.putRoute 200 Sample.exampleOnlyBody Sample.seededDb).2)
    as (id & r' & Hid & Hrow & Hinvalid & _).
  - vm_compute. reflexivity.
  - exists id, r'. split; [exact Hid|]. split; [exact Hrow | exact Hinvalid].
Defined.

(** Witness of X18: the protected row [id] after an update of [email]. *)
Lemma put_no_new_protected_name_witness :
  exists r,
    userProperties Sample.db !! Sample.property1 = Some r
    ∧ PropertyRow.name r = "id".
Proof.
  apply (put_no_new_protected_name Sample.wellformed_id Sample.uuid
           Sample.protectedUserProperties Sample.UserPropertyDefinition
           200 Sample.exampleOnlyBody Sample.db Sample.property1
           {| PropertyRow.workspaceId := Sample.workspace1;
              PropertyRow.name := "id";
              PropertyRow.definition := JObject [("type", JString "Id")];
              PropertyRow.definitionUpdatedAt := Value 100%Z;
              PropertyRow.exampleValue := Null |}).
  - vm_compute. reflexivity.
  - simpl. set_solver.
Defined.
